(** * voicevox_engine/library_manager.py: the voice-library install transaction

    A shallow embedding of [LibraryManager] (listing, installing and
    uninstalling `.vvlib` archives under one installation root) together with
    the parts of the Python runtime it calls: [pathlib]/[os]/[shutil] on a
    directory tree, [zipfile], [json], [semver.version.Version] and the
    pydantic models.

    Conventions.
    - [str] and [bytes] are both byte strings ([string]); text literals of the
      source are kept as their UTF-8 bytes.
    - Python integers are [N] (version numbers) or [Z] (status codes).
    - A raised exception is the [Raise] result of a computation; the
      file-system state reached so far is returned next to it, since Python
      does not roll anything back.
    - Paths are lists of components below the installation root.  A library
      id is one component: [library_root_dir / library_id] is the child of
      that name.  Permissions and links are not part of the tree; what the
      operating system may refuse on its own appears only where the code
      reacts to it, in the deletion of [uninstall_library]. *)

From stdpp Require Import gmap strings list fin_maps.
From Stdlib Require Import NArith ZArith Ascii String.

Open Scope string_scope.
Open Scope list_scope.

(** ** Python string primitives used by the code and by its libraries *)

Module Py.

Abbreviation bytes := string (only parsing).

(** [s.split(sep)] for a one-character separator: never empty, keeps the
    empty pieces. *)
Fixpoint split (sep : ascii) (s : string) : list string :=
  match s with
  | EmptyString => [EmptyString]
  | String c r =>
      if Ascii.eqb c sep then EmptyString :: split sep r
      else match split sep r with
           | h :: t => String c h :: t
           | [] => [String c EmptyString]
           end
  end.

(** [sep.join(parts)]. *)
Fixpoint join (sep : string) (parts : list string) : string :=
  match parts with
  | [] => EmptyString
  | [p] => p
  | p :: rest => p +:+ sep +:+ join sep rest
  end.

(** [s.partition(sep)] without the separator: the text before the first
    [sep] and, when [sep] occurs, the text after it. *)
Fixpoint partition (sep : ascii) (s : string) : string * option string :=
  match s with
  | EmptyString => (EmptyString, None)
  | String c r =>
      if Ascii.eqb c sep then (EmptyString, Some r)
      else let '(h, t) := partition sep r in (String c h, t)
  end.

(** [s.endswith(c)]. *)
Fixpoint endswith (c : ascii) (s : string) : bool :=
  match s with
  | EmptyString => false
  | String d EmptyString => Ascii.eqb d c
  | String _ r => endswith c r
  end.

(** The text a regular expression ending in [$] has to match: Python's [$]
    also matches just before one final newline. *)
Fixpoint before_final_newline (s : string) : string :=
  match s with
  | EmptyString => EmptyString
  | String c EmptyString => if Ascii.eqb c "010"%char then EmptyString else s
  | String c r => String c (before_final_newline r)
  end.

Definition is_digit (c : ascii) : bool :=
  let n := N_of_ascii c in (48 <=? n)%N && (n <=? 57)%N.

Definition is_alpha (c : ascii) : bool :=
  let n := N_of_ascii c in
  ((65 <=? n)%N && (n <=? 90)%N) || ((97 <=? n)%N && (n <=? 122)%N).

Definition all_chars (p : ascii -> bool) (s : string) : bool :=
  forallb p (list_ascii_of_string s).

(** [re.match(r"^\d+$", s)] on text without a newline. *)
Definition is_decimal (s : string) : bool :=
  negb (String.eqb s EmptyString) && all_chars is_digit s.

(** [int(s)] for a string of decimal digits. *)
Definition int_of_digits (s : string) : N :=
  fold_left (fun acc c => (10 * acc + (N_of_ascii c - 48))%N)
            (list_ascii_of_string s) 0%N.

(** [_cmp(a, b) = (a > b) - (a < b)] of semver, as a [comparison]. *)
Definition cmp_N (a b : N) : comparison := N.compare a b.
Definition cmp_str (a b : string) : comparison := String.compare a b.

End Py.

(** ** semver.version.Version

    [Version.parse] follows the library's regular expression

      major.minor.patch[-prerelease][+build]

    where each of major, minor, patch is [0|[1-9]\d*], a prerelease
    identifier is [0|[1-9]\d*|\d*[a-zA-Z-][0-9a-zA-Z-]*] and a build
    identifier is [[0-9a-zA-Z-]+].  [\d] is taken over ASCII digits. *)

Module Semver.

Record Version := mkVersion {
  major : N;
  minor : N;
  patch : N;
  prerelease : option string;
  build : option string
}.

Definition is_ident_char (c : ascii) : bool :=
  Py.is_digit c || Py.is_alpha c || Ascii.eqb c "-"%char.

(** [0|[1-9]\d*] *)
Definition numeric_identifier (s : string) : option N :=
  match s with
  | EmptyString => None
  | String c r =>
      if Py.all_chars Py.is_digit s then
        if Ascii.eqb c "0"%char && negb (String.eqb r EmptyString) then None
        else Some (Py.int_of_digits s)
      else None
  end.

(** [0|[1-9]\d*|\d*[a-zA-Z-][0-9a-zA-Z-]*] *)
Definition prerelease_identifier (s : string) : bool :=
  negb (String.eqb s EmptyString) && Py.all_chars is_ident_char s
  && (if Py.all_chars Py.is_digit s
      then match numeric_identifier s with Some _ => true | None => false end
      else true).

(** [[0-9a-zA-Z-]+] *)
Definition build_identifier (s : string) : bool :=
  negb (String.eqb s EmptyString) && Py.all_chars is_ident_char s.

(** [Version.parse(version)]: [None] stands for [ValueError]. *)
Definition parse (version : string) : option Version :=
  let text := Py.before_final_newline version in
  let '(core_pre, bld) := Py.partition "+" text in
  let '(core, pre) := Py.partition "-" core_pre in
  match Py.split "." core with
  | [ma; mi; pa] =>
      match numeric_identifier ma, numeric_identifier mi,
            numeric_identifier pa with
      | Some a, Some b, Some c =>
          let pre_ok :=
            match pre with
            | None => true
            | Some p => forallb prerelease_identifier (Py.split "." p)
            end in
          let bld_ok :=
            match bld with
            | None => true
            | Some p => forallb build_identifier (Py.split "." p)
            end in
          if pre_ok && bld_ok then Some (mkVersion a b c pre bld) else None
      | _, _, _ => None
      end
  | _ => None
  end.

(** [Version.is_valid(version)]: parse and catch [ValueError]. *)
Definition is_valid (version : string) : bool :=
  match parse version with Some _ => true | None => false end.

(** The two kinds of prerelease tag [_nat_cmp] compares. *)
Inductive tag := TInt (n : N) | TStr (s : string).

Definition tag_of (x : string) : tag :=
  if Py.is_decimal x then TInt (Py.int_of_digits x) else TStr x.

(** [cmp_prerelease_tag]: integers before text. *)
Definition cmp_prerelease_tag (a b : tag) : comparison :=
  match a, b with
  | TInt x, TInt y => Py.cmp_N x y
  | TInt _, TStr _ => Lt
  | TStr _, TInt _ => Gt
  | TStr x, TStr y => Py.cmp_str x y
  end.

(** The loop over [zip(a_parts, b_parts)] of [_nat_cmp]; [Eq] when the
    loop ends without a difference. *)
Fixpoint cmp_zip (a_parts b_parts : list tag) : comparison :=
  match a_parts, b_parts with
  | x :: a', y :: b' =>
      match cmp_prerelease_tag x y with
      | Eq => cmp_zip a' b'
      | c => c
      end
  | _, _ => Eq
  end.

(** [Version._nat_cmp(a, b)], after [a, b = a or "", b or ""]. *)
Definition nat_cmp (a b : option string) : comparison :=
  let a := default EmptyString a in
  let b := default EmptyString b in
  let a_parts := map tag_of (Py.split "." a) in
  let b_parts := map tag_of (Py.split "." b) in
  match cmp_zip a_parts b_parts with
  | Eq => Py.cmp_N (N.of_nat (String.length a)) (N.of_nat (String.length b))
  | c => c
  end.

(** [_cmp] on the tuples [to_tuple()[:3]]. *)
Definition cmp_core (v1 v2 : Version) : comparison :=
  match Py.cmp_N (major v1) (major v2) with
  | Eq => match Py.cmp_N (minor v1) (minor v2) with
          | Eq => Py.cmp_N (patch v1) (patch v2)
          | c => c
          end
  | c => c
  end.

(** [not rc]: a prerelease that is [None] or empty. *)
Definition falsy (rc : option string) : bool :=
  match rc with
  | None => true
  | Some s => String.eqb s EmptyString
  end.

(** [Version.compare(self, other)]; the build is not compared. *)
Definition compare (self other : Version) : comparison :=
  match cmp_core self other with
  | Eq =>
      match nat_cmp (prerelease self) (prerelease other) with
      | Eq => Eq
      | rccmp =>
          if falsy (prerelease self) then Gt
          else if falsy (prerelease other) then Lt
          else rccmp
      end
  | x => x
  end.

(** [self > other]. *)
Definition gt (self other : Version) : bool :=
  match compare self other with Gt => true | _ => false end.

End Semver.

(** ** json values, as [json.loads] builds them *)

#[local] Set Warnings "-register-all".

Inductive json :=
  | JNull
  | JBool (b : bool)
  | JNumber (literal : string)
  | JString (s : string)
  | JArray (items : list json)
  | JObject (members : gmap string json).

#[local] Set Warnings "register-all".

(** The codecs and pydantic models the manager calls and whose code is not
    part of this file.  [None] is the exception the call raises. *)
Class PyRuntime := {
  (** [b.decode("utf-8")]; [None] is [UnicodeDecodeError]. *)
  utf8_decode : Py.bytes -> option string;
  (** [json.loads(s)]; [None] is [JSONDecodeError]. *)
  json_loads : string -> option json;
  (** The bytes [json.dump(obj, f, indent=4, ensure_ascii=False)] leaves in
      a file opened with [encoding="utf-8"]. *)
  json_dump : json -> Py.bytes;
  (** The fields [InstalledLibraryInfo] takes over from its keyword
      arguments, next to [uninstallable]; [None] is [ValidationError]. *)
  BaseLibraryInfo_fields : gmap string json -> option (gmap string json);
  (** The fields of [VvlibManifest] other than [version],
      [manifest_version] and [engine_uuid]. *)
  VvlibManifest_other_fields : gmap string json -> bool
}.

(** ** Exceptions and computations on the installation root *)

Inductive os_error :=
  | FileExistsError
  | FileNotFoundError
  | IsADirectoryError
  | NotADirectoryError
  | OtherOSError.

Inductive exception :=
  | HTTPException (status_code : Z) (detail : string)
  | OSError (kind : os_error) (filename : list string)
  | BadZipFile
  | KeyError (key : string)
  | ValueError
  | TypeError
  | ValidationError.

Inductive result (A : Type) :=
  | Return (a : A)
  | Raise (e : exception).
Arguments Return {A} a.
Arguments Raise {A} e.

(** ** The directory tree below [library_root_dir]

    A node is a regular file with its bytes or a directory; the key of a
    node is its path below the root, and the root itself (the empty path) is
    a directory that [__init__] has made sure exists. *)

Inductive node :=
  | File (content : Py.bytes)
  | Dir.

Abbreviation path := (list string).
Abbreviation tree := (gmap (list string) node).

(** A computation that reads and changes the tree and may raise. *)
Definition IO (A : Type) : Type := tree -> result A * tree.

Definition ret {A} (a : A) : IO A := fun fs => (Return a, fs).
Definition raise {A} (e : exception) : IO A := fun fs => (Raise e, fs).
Definition bind {A B} (c : IO A) (k : A -> IO B) : IO B :=
  fun fs =>
    match c fs with
    | (Return a, fs') => k a fs'
    | (Raise e, fs') => (Raise e, fs')
    end.
(** A step that cannot touch the tree. *)
Definition pure_step {A} (r : result A) : IO A := fun fs => (r, fs).

Notation "'let*' x ':=' c 'in' k" := (bind c (fun x => k))
  (at level 10, x name, c at level 100, k at level 200).

(** [for x in xs: body(x)] *)
Fixpoint for_each {A} (xs : list A) (body : A -> IO unit) : IO unit :=
  match xs with
  | [] => ret tt
  | x :: rest => let* _ := body x in for_each rest body
  end.

Module Fs.

(** [os.path.dirname] *)
Definition dirname (p : path) : path := removelast p.

(** [os.path.exists] *)
Definition exists_ (fs : tree) (p : path) : bool :=
  match p with
  | [] => true
  | _ => match fs !! p with Some _ => true | None => false end
  end.

(** [os.path.isdir], [Path.is_dir] *)
Definition isdir (fs : tree) (p : path) : bool :=
  match p with
  | [] => true
  | _ => match fs !! p with Some Dir => true | _ => false end
  end.

(** Why the directory that should hold [p] cannot: it is missing or it is
    a file.  Only the parent is looked at; in a tree where every node has
    its ancestors this decides whether the call goes through. *)
Definition parent_fault (fs : tree) (p : path) : option os_error :=
  match dirname p with
  | [] => None
  | q => match fs !! q with
         | Some Dir => None
         | Some (File _) => Some NotADirectoryError
         | None => Some FileNotFoundError
         end
  end.

(** [os.mkdir(p)] *)
Definition mkdir (p : path) : IO unit := fun fs =>
  match parent_fault fs p with
  | Some err => (Raise (OSError err p), fs)
  | None =>
      if exists_ fs p then (Raise (OSError FileExistsError p), fs)
      else (Return tt, <[p := Dir]> fs)
  end.

(** [Path(p).mkdir(exist_ok=True)]: [os.mkdir], and an [OSError] is
    swallowed when the path is a directory by then. *)
Definition mkdir_exist_ok (p : path) : IO unit := fun fs =>
  match mkdir p fs with
  | (Raise (OSError err q), fs') =>
      if isdir fs' p then (Return tt, fs') else (Raise (OSError err q), fs')
  | other => other
  end.

(** [os.makedirs(p)], on the reversed path [name :: head]: the missing
    ancestors first ([FileExistsError] from that call is passed over),
    then [os.mkdir(p)]. *)
Fixpoint makedirs_rev (rp : list string) : IO unit :=
  match rp with
  | [] => ret tt
  | name :: rhead =>
      fun fs =>
        let head := rev rhead in
        let after_head :=
          if exists_ fs head then (Return tt, fs)
          else match makedirs_rev rhead fs with
               | (Raise (OSError FileExistsError _), fs') => (Return tt, fs')
               | other => other
               end in
        match after_head with
        | (Return _, fs') => mkdir (rev rp) fs'
        | (Raise e, fs') => (Raise e, fs')
        end
  end.

Definition makedirs (p : path) : IO unit := makedirs_rev (rev p).

(** [open(p, "w")] or [open(p, "wb")], writing [data] and closing. *)
Definition write_file (p : path) (data : Py.bytes) : IO unit := fun fs =>
  match parent_fault fs p with
  | Some err => (Raise (OSError err p), fs)
  | None =>
      if isdir fs p then (Raise (OSError IsADirectoryError p), fs)
      else (Return tt, <[p := File data]> fs)
  end.

(** [open(p).read()] in binary. *)
Definition read_file (p : path) : IO Py.bytes := fun fs =>
  match parent_fault fs p with
  | Some err => (Raise (OSError err p), fs)
  | None =>
      match fs !! p with
      | Some (File data) => (Return data, fs)
      | Some Dir => (Raise (OSError IsADirectoryError p), fs)
      | None => (Raise (OSError FileNotFoundError p), fs)
      end
  end.

(** [library_root_dir.iterdir()]: the names of the entries of the root. *)
Definition iterdir (fs : tree) : list string :=
  omap (fun '(p, _) => match p with [name] => Some name | _ => None end)
       (map_to_list fs).

(** [p] is [q] or lies below it. *)
Definition below (q p : path) : bool := bool_decide (q `prefix_of` p).

(** What the operating system does with a recursive deletion: it goes
    through, or it stops with an error and leaves some of the nodes. *)
Inductive deletion :=
  | Completes
  | FailsLeaving (kept : gset path).

(** [shutil.rmtree(p)] *)
Definition rmtree (how : deletion) (p : path) : IO unit := fun fs =>
  match fs !! p with
  | None => (Raise (OSError FileNotFoundError p), fs)
  | Some (File _) => (Raise (OSError NotADirectoryError p), fs)
  | Some Dir =>
      match how with
      | Completes =>
          (Return tt, filter (fun '(q, _) => below p q = false) fs)
      | FailsLeaving kept =>
          (Raise (OSError OtherOSError p),
           filter (fun '(q, _) => below p q = false \/ q ∈ kept) fs)
      end
  end.

End Fs.

(** Reading the tree inside a computation. *)
Definition get_tree : IO tree := fun fs => (Return fs, fs).

(** The same sequencing for steps that only compute. *)
Definition rbind {A B} (r : result A) (k : A -> result B) : result B :=
  match r with
  | Return a => k a
  | Raise e => Raise e
  end.

Notation "'let?' x ':=' c 'in' k" := (rbind c (fun x => k))
  (at level 10, x name, c at level 100, k at level 200).

(** ** zipfile

    The uploaded [BinaryIO] is what [zipfile] finds in it: no end-of-central-
    directory record at all, a record whose central directory cannot be
    read, or the member list.  A member carries its name, its uncompressed
    bytes and whether the bytes match the stored CRC-32. *)

Module Zip.

Record ZipInfo := mkZipInfo {
  filename : string;
  content : Py.bytes;
  crc_ok : bool
}.

Inductive BinaryIO :=
  | NotAZip
  | BrokenDirectory
  | Archive (filelist : list ZipInfo).

Abbreviation ZipFile := (list ZipInfo).

(** [zipfile.is_zipfile(file)]: is there an end-of-central-directory
    record. *)
Definition is_zipfile (file : BinaryIO) : bool :=
  match file with
  | NotAZip => false
  | BrokenDirectory | Archive _ => true
  end.

(** [zipfile.ZipFile(file)] *)
Definition open_ (file : BinaryIO) : result ZipFile :=
  match file with
  | Archive filelist => Return filelist
  | NotAZip | BrokenDirectory => Raise BadZipFile
  end.

(** [zf.testzip()]: the name of the first member with a bad CRC. *)
Definition testzip (zf : ZipFile) : option string :=
  filename <$> find (fun zinfo => negb (crc_ok zinfo)) zf.

(** [zf.namelist()] *)
Definition namelist (zf : ZipFile) : list string := map filename zf.

(** [zf.getinfo(name)]: [NameToInfo] keeps the last member of a name. *)
Definition getinfo (zf : ZipFile) (name : string) : result ZipInfo :=
  match find (fun zinfo => String.eqb (filename zinfo) name) (rev zf) with
  | Some zinfo => Return zinfo
  | None => Raise (KeyError name)
  end.

(** [zf.read(name)] *)
Definition read (zf : ZipFile) (name : string) : result Py.bytes :=
  let? zinfo := getinfo zf name in
  if crc_ok zinfo then Return (content zinfo) else Raise BadZipFile.

(** [zinfo.is_dir()] *)
Definition is_dir (zinfo : ZipInfo) : bool := Py.endswith "/" (filename zinfo).

(** The components [_extract_member] keeps of a member name: split at
    ["/"], without the empty ones, ["."] and [".."]. *)
Definition invalid_path_part (x : string) : bool :=
  String.eqb x "" || String.eqb x "." || String.eqb x "..".

Definition arcname (name : string) : path :=
  List.filter (fun x => negb (invalid_path_part x)) (Py.split "/" name).

(** [zf._extract_member(member, targetpath, pwd)] *)
Definition extract_member (member : ZipInfo) (targetpath : path) : IO unit :=
  let targetpath := targetpath ++ arcname (filename member) in
  let upperdirs := Fs.dirname targetpath in
  let* fs := get_tree in
  let* _ := (if Fs.exists_ fs upperdirs then ret tt
             else Fs.makedirs upperdirs) in
  if is_dir member then
    let* fs := get_tree in
    if Fs.isdir fs targetpath then ret tt else Fs.mkdir targetpath
  else
    Fs.write_file targetpath (content member).

(** [zf.extractall(path)]: every name of [namelist()], looked up again
    with [getinfo]. *)
Definition extractall (zf : ZipFile) (targetpath : path) : IO unit :=
  for_each (namelist zf)
    (fun name =>
       let* member := pure_step (getinfo zf name) in
       extract_member member targetpath).

End Zip.

(** ** voicevox_engine.model *)

Record DownloadableLibraryInfo := mkDownloadable {
  uuid : string;
  (** [downloadable_library.dict()] *)
  dict : json
}.

Record InstalledLibraryInfo := mkInstalled {
  fields : gmap string json;
  uninstallable : bool
}.

Section Models.
Context {rt : PyRuntime}.

(** [InstalledLibraryInfo] called with the items of [info] as keywords
    and [uninstallable=flag]: [info] has to be a mapping, and a key
    [uninstallable] in it is a second value for the keyword. *)
Definition InstalledLibraryInfo_new (info : json) (flag : bool)
  : result InstalledLibraryInfo :=
  match info with
  | JObject kwargs =>
      match kwargs !! "uninstallable" with
      | Some _ => Raise TypeError
      | None =>
          match BaseLibraryInfo_fields kwargs with
          | Some fs => Return (mkInstalled fs flag)
          | None => Raise ValidationError
          end
      end
  | _ => Raise TypeError
  end.

(** Modelled from the spec: the schema of [VvlibManifest]
    (voicevox_engine/model.py is not among the sources).  The manifest is
    a structured document with the fields [version], [manifest_version]
    and [engine_uuid], each a string, plus descriptor-like fields; a
    document that is not of this shape is malformed. *)
Definition VvlibManifest_validate (value : json) : result unit :=
  match value with
  | JObject m =>
      match m !! "version", m !! "manifest_version", m !! "engine_uuid" with
      | Some (JString _), Some (JString _), Some (JString _) =>
          if VvlibManifest_other_fields m then Return tt
          else Raise ValidationError
      | _, _, _ => Raise ValidationError
      end
  | _ => Raise ValidationError
  end.

(** [json.load(f)] on a file opened with [encoding="utf-8"], and
    [json.loads(b.decode("utf-8"))]. *)
Definition json_load (raw : Py.bytes) : result json :=
  match utf8_decode raw with
  | None => Raise ValueError
  | Some text =>
      match json_loads text with
      | None => Raise ValueError
      | Some value => Return value
      end
  end.

End Models.

(** [value[key]] *)
Definition getitem (value : json) (key : string) : result json :=
  match value with
  | JObject m =>
      match m !! key with
      | Some v => Return v
      | None => Raise (KeyError key)
      end
  | _ => Raise TypeError
  end.

(** A [str] argument of the semver functions; anything else is a
    [TypeError] there. *)
Definition as_str (value : json) : result string :=
  match value with
  | JString s => Return s
  | _ => Raise TypeError
  end.

(** [value != s] for a string [s]. *)
Definition ne_str (value : json) (s : string) : bool :=
  match value with
  | JString t => negb (String.eqb t s)
  | _ => true
  end.

(** ** LibraryManager *)

Definition INFO_FILE : string := "metas.json".

Record LibraryManager := mkLibraryManager {
  supported_vvlib_version : Semver.Version;
  engine_brand_name : string;
  engine_name : string;
  engine_uuid : string;
  (** What [downloadable_libraries()] reads from the engine's assets on
      each call. *)
  downloadable_libraries : list DownloadableLibraryInfo
}.

(** [LibraryManager.__init__]; [library_root_dir.mkdir(exist_ok=True)]
    makes the root of the tree, which is there in every [tree].  An
    unparsable version is the [ValueError] of [Version.parse]. *)
Definition LibraryManager_init (supported_vvlib_version : option string)
    (brand_name engine_name engine_uuid : string)
    (catalog : list DownloadableLibraryInfo) : result LibraryManager :=
  let text :=
    match supported_vvlib_version with
    | Some v => v
    | None => "0.0.0"
    end in
  match Semver.parse text with
  | Some version =>
      Return (mkLibraryManager version brand_name engine_name engine_uuid
                               catalog)
  | None => Raise ValueError
  end.

Section Manager.
Context {rt : PyRuntime}.

(** The body of the loop of [installed_libraries] for one entry of the
    root that is a directory. *)
Definition read_library_info (library_uuid : string)
  : IO InstalledLibraryInfo :=
  let* raw := Fs.read_file [library_uuid; INFO_FILE] in
  let* info := pure_step (json_load raw) in
  pure_step (InstalledLibraryInfo_new info true).

(** The loop of [installed_libraries] over the entries [names]. *)
Fixpoint scan_libraries (names : list string)
    (library : gmap string InstalledLibraryInfo)
  : IO (gmap string InstalledLibraryInfo) :=
  match names with
  | [] => ret library
  | library_uuid :: rest =>
      let* fs := get_tree in
      if Fs.isdir fs [library_uuid] then
        let* info := read_library_info library_uuid in
        scan_libraries rest (<[library_uuid := info]> library)
      else scan_libraries rest library
  end.

(** [LibraryManager.installed_libraries] *)
Definition installed_libraries : IO (gmap string InstalledLibraryInfo) :=
  let* fs := get_tree in
  scan_libraries (Fs.iterdir fs) ∅.

(** The [try] block that reads and decodes the manifest. *)
Definition load_manifest (zf : Zip.ZipFile) : result json :=
  let? raw := Zip.read zf "vvlib_manifest.json" in
  json_load raw.

(** [install_library], from the zip check to the engine check: everything
    that is looked at before the archive is unpacked.  The result is the
    opened archive. *)
Definition validate_vvlib (self : LibraryManager) (library_id : string)
    (file : Zip.BinaryIO) : result Zip.ZipFile :=
  if negb (Zip.is_zipfile file) then
    Raise (HTTPException 422
        ("音声ライブラリ " +:+ library_id +:+ " は不正なファイルです。"))
  else
    let? zf := Zip.open_ file in
    match Zip.testzip zf with
    | Some _ => Raise (HTTPException 422
        ("音声ライブラリ " +:+ library_id +:+ " は不正なファイルです。"))
    | None =>
        let? vvlib_manifest :=
          match load_manifest zf with
          | Raise (KeyError _) => Raise (HTTPException 422
              ("指定された音声ライブラリ " +:+ library_id
                 +:+ " にvvlib_manifest.jsonが存在しません。"))
          | Raise _ => Raise (HTTPException 422
              ("指定された音声ライブラリ " +:+ library_id
                 +:+ " のvvlib_manifest.jsonは不正です。"))
          | Return value => Return value
          end in
        let? _ :=
          match VvlibManifest_validate vvlib_manifest with
          | Raise ValidationError => Raise (HTTPException 422
              ("指定された音声ライブラリ " +:+ library_id
                 +:+ " のvvlib_manifest.jsonに不正なデータが含まれています。"))
          | other => other
          end in
        let? version := rbind (getitem vvlib_manifest "version") as_str in
        if negb (Semver.is_valid version) then
          Raise (HTTPException 422
              ("指定された音声ライブラリ " +:+ library_id +:+ " のversionが不正です。"))
        else
          let? manifest_version :=
            rbind (getitem vvlib_manifest "manifest_version") as_str in
          match Semver.parse manifest_version with
          | None => Raise (HTTPException 422
              ("指定された音声ライブラリ " +:+ library_id +:+ " のmanifest_versionが不正です。"))
          | Some vvlib_manifest_version =>
              if Semver.gt vvlib_manifest_version
                           (supported_vvlib_version self) then
                Raise (HTTPException 422
                    ("指定された音声ライブラリ " +:+ library_id +:+ " は未対応です。"))
              else
                let? manifest_engine := getitem vvlib_manifest "engine_uuid" in
                if ne_str manifest_engine (engine_uuid self) then
                  Raise (HTTPException 422
                      ("指定された音声ライブラリ " +:+ library_id +:+ " は"
                         +:+ engine_name self +:+ "向けではありません。"))
                else Return zf
          end
    end.

(** [LibraryManager.install_library] *)
Definition install_library (self : LibraryManager) (library_id : string)
    (file : Zip.BinaryIO) : IO path :=
  match find (fun downloadable_library =>
                String.eqb (uuid downloadable_library) library_id)
             (downloadable_libraries self) with
  | None => raise (HTTPException 404
      ("指定された音声ライブラリ " +:+ library_id +:+ " が見つかりません。"))
  | Some downloadable_library =>
      let library_info := dict downloadable_library in
      let library_dir := [library_id] in
      let* _ := Fs.mkdir_exist_ok library_dir in
      let* _ := Fs.write_file (library_dir ++ [INFO_FILE])
                              (json_dump library_info) in
      let* zf := pure_step (validate_vvlib self library_id file) in
      let* _ := Zip.extractall zf library_dir in
      ret library_dir
  end.

(** [uninstall_library] once the listing has been taken. *)
Definition uninstall_listed
    (installed_libraries : gmap string InstalledLibraryInfo)
    (how : Fs.deletion) (library_id : string) : IO unit :=
  match installed_libraries !! library_id with
  | None => raise (HTTPException 404
      ("指定された音声ライブラリ " +:+ library_id +:+ " はインストールされていません。"))
  | Some info =>
      if negb (uninstallable info) then
        raise (HTTPException 403
            ("指定された音声ライブラリ " +:+ library_id +:+ " はアンインストールできません。"))
      else
        fun fs =>
          match Fs.rmtree how [library_id] fs with
          | (Raise _, fs') => (Raise (HTTPException 500
              ("指定された音声ライブラリ " +:+ library_id +:+ " の削除に失敗しました。")), fs')
          | done => done
          end
  end.

(** [LibraryManager.uninstall_library]; [how] is what the operating
    system makes of the deletion. *)
Definition uninstall_library (how : Fs.deletion) (library_id : string)
  : IO unit :=
  let* installed := installed_libraries in
  uninstall_listed installed how library_id.

End Manager.

(** ** A runtime and documents for the worked examples

    The codec of this runtime knows the flat documents listed in
    [known_documents]; every other text is not json for it. *)

Module Fixture.

Definition dq : string := String "034"%char EmptyString.

Definition quoted (s : string) : string := dq +:+ s +:+ dq.

Definition member_text (kv : string * string) : string :=
  quoted (fst kv) +:+ ": " +:+ quoted (snd kv).

(** The text of an object whose values are strings. *)
Definition object_text (members : list (string * string)) : string :=
  "{" +:+ Py.join ", " (map member_text members) +:+ "}".

Definition object_value (members : list (string * string)) : json :=
  JObject (list_to_map (map (fun kv => (fst kv, JString (snd kv))) members)).

Definition host_uuid : string := "c7b58856-bd56-4aa1-afb7-b8415f824b06".

Definition manifest (version manifest_version engine : string)
  : list (string * string) :=
  [("manifest_version", manifest_version); ("name", "voice");
   ("version", version); ("uuid", "lib-a");
   ("brand_name", "brand"); ("engine_name", "engine");
   ("engine_uuid", engine)].

Definition descriptor_a : list (string * string) :=
  [("name", "voice"); ("uuid", "lib-a"); ("version", "1.0.0")].

Definition string_member (kv : string * json) : option (string * string) :=
  match snd kv with
  | JString s => Some (fst kv, s)
  | _ => None
  end.

Definition dump (value : json) : string :=
  match value with
  | JObject m => object_text (omap string_member (map_to_list m))
  | _ => "null"
  end.

(** Texts and the values they stand for: the manifests as an archive
    holds them, the descriptor as [dump] writes it. *)
Definition known_documents : list (string * json) :=
  map (fun d => (object_text d, object_value d))
      [ manifest "1.0.0" "0.0.0" host_uuid;
        manifest "1.0.0" "0.0.0-alpha" host_uuid;
        manifest "1.0.0" "1.0.0" host_uuid;
        manifest "1.0.0" "2.0.0" host_uuid;
        manifest "1.0.0" "1.0.0" "another-engine" ]
  ++ [ (dump (object_value descriptor_a), object_value descriptor_a) ].

Definition loads (text : string) : option json :=
  snd <$> find (fun d => String.eqb (fst d) text) known_documents.

Definition runtime : PyRuntime := {|
  utf8_decode := Some;
  json_loads := loads;
  json_dump := dump;
  BaseLibraryInfo_fields := Some;
  VvlibManifest_other_fields := fun _ => true
|}.

Definition catalog : list DownloadableLibraryInfo :=
  [mkDownloadable "lib-a" (object_value descriptor_a)].

(** A manager whose supported manifest version is [supported]. *)
Definition manager (supported : Semver.Version) : LibraryManager :=
  mkLibraryManager supported "brand" "engine" host_uuid catalog.

Definition v (a b c : N) : Semver.Version := Semver.mkVersion a b c None None.

(** An archive holding a manifest and one payload file. *)
Definition vvlib (manifest_version engine : string) : Zip.BinaryIO :=
  Zip.Archive
    [Zip.mkZipInfo "vvlib_manifest.json"
       (object_text (manifest "1.0.0" manifest_version engine)) true;
     Zip.mkZipInfo "model/voice.bin" "payload" true].

(** The same archive with a payload that fails its CRC. *)
Definition vvlib_bad_crc : Zip.BinaryIO :=
  Zip.Archive
    [Zip.mkZipInfo "vvlib_manifest.json"
       (object_text (manifest "1.0.0" "1.0.0" host_uuid)) true;
     Zip.mkZipInfo "model/voice.bin" "payload" false].

(** The manifest object of [vvlib manifest_version engine]. *)
Definition manifest_object (manifest_version engine : string)
  : gmap string json :=
  list_to_map
    (map (fun kv => (fst kv, JString (snd kv)))
         (manifest "1.0.0" manifest_version engine)).

Definition library_a : DownloadableLibraryInfo :=
  mkDownloadable "lib-a" (object_value descriptor_a).

(** The tree after [lib-a] has been installed into an empty root. *)
Definition installed_tree : tree :=
  snd (@install_library runtime (manager (v 1 0 0)) "lib-a"
         (vvlib "1.0.0" host_uuid) ∅).

(** A root with one subdirectory and nothing in it. *)
Definition orphan_tree : tree := {[ ["orphan"] := Dir ]}.

(** An archive with a member that lands on the metadata document. *)
Definition vvlib_with_metas : Zip.BinaryIO :=
  Zip.Archive
    [Zip.mkZipInfo "vvlib_manifest.json"
       (object_text (manifest "1.0.0" "1.0.0" host_uuid)) true;
     Zip.mkZipInfo "./metas.json" "shadow" true].

(** An archive without a manifest, and one whose manifest is no json. *)
Definition vvlib_without_manifest : Zip.BinaryIO :=
  Zip.Archive [Zip.mkZipInfo "model/voice.bin" "payload" true].

Definition vvlib_with_garbled_manifest : Zip.BinaryIO :=
  Zip.Archive [Zip.mkZipInfo "vvlib_manifest.json" "{" true].

(** A root where a file has the name of the library. *)
Definition blocked_tree : tree := {[ ["lib-a"] := File "x" ]}.

(** An archive with a member whose name points out of the package
    directory. *)
Definition vvlib_escaping : Zip.BinaryIO :=
  Zip.Archive
    [Zip.mkZipInfo "vvlib_manifest.json"
       (object_text (manifest "1.0.0" "1.0.0" host_uuid)) true;
     Zip.mkZipInfo "/../../orphan/./evil.bin" "payload" true].

(** The fields of the descriptor of [lib-a], and the listing that holds
    this library alone. *)
Definition descriptor_fields : gmap string json :=
  list_to_map (map (fun kv => (fst kv, JString (snd kv))) descriptor_a).

Definition listing_of_a : gmap string InstalledLibraryInfo :=
  <["lib-a" := mkInstalled descriptor_fields true]> ∅.

(** The trees that installing [vvlib_escaping] next to the orphan and
    [vvlib_with_metas] into an empty root leave. *)
Definition escaped_tree : tree :=
  Eval vm_compute in
    snd (@install_library runtime (manager (v 1 0 0)) "lib-a" vvlib_escaping
           orphan_tree).

Definition shadowed_tree : tree :=
  Eval vm_compute in
    snd (@install_library runtime (manager (v 1 0 0)) "lib-a"
           vvlib_with_metas ∅).

End Fixture.

(** ** Vocabulary of the properties *)

Section Vocabulary.
Context {rt : PyRuntime}.

(** The catalog lookup at the head of [install_library]. *)
Definition lookup_library (self : LibraryManager) (library_id : string)
  : option DownloadableLibraryInfo :=
  find (fun downloadable_library =>
          String.eqb (uuid downloadable_library) library_id)
       (downloadable_libraries self).

(** Nothing in the tree stands in the way of the package directory and of
    its metadata document: the first is not a file, the second is not a
    directory. *)
Definition installable_at (fs : tree) (library_id : string) : bool :=
  match fs !! [library_id] with
  | Some (File _) => false
  | _ => true
  end
  && match fs !! [library_id; INFO_FILE] with
     | Some Dir => false
     | _ => true
     end.

(** The tree once the package directory and the metadata document of
    [library] are in place. *)
Definition with_metadata (fs : tree) (library_id : string)
    (library : DownloadableLibraryInfo) : tree :=
  <[[library_id; INFO_FILE] := File (json_dump (dict library))]>
    (<[[library_id] := Dir]> fs).

(** The upload opens as an archive whose manifest entry decodes to the
    object [m]. *)
Definition embeds_manifest (file : Zip.BinaryIO) (m : gmap string json)
  : Prop :=
  exists zf, file = Zip.Archive zf /\ load_manifest zf = Return (JObject m).

(** The upload passes the zip check and the CRC self-test. *)
Definition sound_archive (file : Zip.BinaryIO) : Prop :=
  exists zf, file = Zip.Archive zf /\ Zip.testzip zf = None.

(** The manifest passes the schema check and the check of [version]. *)
Definition passes_schema_and_version (m : gmap string json) : Prop :=
  VvlibManifest_validate (JObject m) = Return tt
  /\ exists version,
       m !! "version" = Some (JString version)
       /\ Semver.is_valid version = true.

(** Major, then minor, then patch, each compared as a number: [v] is
    strictly above [w]. *)
Definition core_above (v w : Semver.Version) : Prop :=
  (Semver.major w < Semver.major v)%N
  \/ (Semver.major w = Semver.major v
      /\ (Semver.minor w < Semver.minor v)%N)
  \/ (Semver.major w = Semver.major v /\ Semver.minor w = Semver.minor v
      /\ (Semver.patch w < Semver.patch v)%N).

(** The metadata document of the subdirectory [name] can be read: it is a
    file and its bytes decode to a json value. *)
Definition readable_metadata (fs : tree) (name : string) : Prop :=
  exists raw value,
    fs !! [name; INFO_FILE] = Some (File raw) /\ json_load raw = Return value.

(** What reading the entry of [name] gives in the tree [fs]. *)
Definition library_info_at (fs : tree) (name : string)
  : result InstalledLibraryInfo :=
  fst (read_library_info name fs).

(** The reason strings of the two archive checks. *)
Definition not_a_zip_detail (library_id : string) : string :=
  "音声ライブラリ " +:+ library_id +:+ " は不正なファイルです。".

Definition unsupported_detail (library_id : string) : string :=
  "指定された音声ライブラリ " +:+ library_id +:+ " は未対応です。".

Definition other_engine_detail (self : LibraryManager) (library_id : string)
  : string :=
  "指定された音声ライブラリ " +:+ library_id +:+ " は"
    +:+ engine_name self +:+ "向けではありません。".

Definition unknown_library_detail (library_id : string) : string :=
  "指定された音声ライブラリ " +:+ library_id +:+ " が見つかりません。".

Definition not_installed_detail (library_id : string) : string :=
  "指定された音声ライブラリ " +:+ library_id +:+ " はインストールされていません。".

Definition not_removable_detail (library_id : string) : string :=
  "指定された音声ライブラリ " +:+ library_id +:+ " はアンインストールできません。".

(** What is left of the validation once the manifest has passed the schema
    check and the check of [version]. *)
Definition version_and_engine_gates (self : LibraryManager)
    (library_id : string) (zf : Zip.ZipFile) (m : gmap string json)
    (manifest_version : string) : result Zip.ZipFile :=
  match Semver.parse manifest_version with
  | None =>
      Raise (HTTPException 422
               ("指定された音声ライブラリ " +:+ library_id
                  +:+ " のmanifest_versionが不正です。"))
  | Some v =>
      if Semver.gt v (supported_vvlib_version self) then
        Raise (HTTPException 422 (unsupported_detail library_id))
      else
        match m !! "engine_uuid" with
        | Some engine =>
            if ne_str engine (engine_uuid self) then
              Raise (HTTPException 422 (other_engine_detail self library_id))
            else Return zf
        | None => Raise (KeyError "engine_uuid")
        end
  end.

(** Directory or file. *)
Definition is_directory (nd : node) : bool :=
  match nd with
  | Dir => true
  | File _ => false
  end.

(** Every node of [t] is in [u] too, as a node of the same kind. *)
Definition covers (u t : tree) : Prop :=
  forall p nd,
    t !! p = Some nd ->
    exists nd', u !! p = Some nd' /\ is_directory nd' = is_directory nd.

(** Where [_extract_member] puts a member below [targetpath]. *)
Definition target_of (member : Zip.ZipInfo) (targetpath : path) : path :=
  targetpath ++ Zip.arcname (Zip.filename member).

(** The tree after the first part of [_extract_member], the making of the
    upper directories. *)
Definition upper_made (member : Zip.ZipInfo) (targetpath : path) (t : tree)
  : result unit * tree :=
  if Fs.exists_ t (Fs.dirname (target_of member targetpath))
  then (Return tt, t)
  else Fs.makedirs (Fs.dirname (target_of member targetpath)) t.

(** The file that the turn of [extractall] for [name] writes below
    [targetpath]: its path and its bytes.  A directory member writes none. *)
Definition written_by (zf : Zip.ZipFile) (targetpath : path) (name : string)
  : option (path * Py.bytes) :=
  match Zip.getinfo zf name with
  | Return member =>
      if Zip.is_dir member then None
      else Some (target_of member targetpath, Zip.content member)
  | Raise _ => None
  end.

(** No turn for a name of [names] writes a file at [p]. *)
Definition unwritten (zf : Zip.ZipFile) (targetpath : path)
    (names : list string) (p : path) : Prop :=
  Forall (fun n => forall c, written_by zf targetpath n <> Some (p, c)) names.

(** Major, minor and patch are the same. *)
Definition same_core (v w : Semver.Version) : Prop :=
  Semver.major v = Semver.major w
  /\ Semver.minor v = Semver.minor w
  /\ Semver.patch v = Semver.patch w.

Definition manifest_missing_detail (library_id : string) : string :=
  "指定された音声ライブラリ " +:+ library_id
    +:+ " にvvlib_manifest.jsonが存在しません。".

Definition manifest_undecodable_detail (library_id : string) : string :=
  "指定された音声ライブラリ " +:+ library_id
    +:+ " のvvlib_manifest.jsonは不正です。".

Definition deletion_failed_detail (library_id : string) : string :=
  "指定された音声ライブラリ " +:+ library_id +:+ " の削除に失敗しました。".

End Vocabulary.

(** * Properties *)

Example parse_1_0_0 :
  Semver.parse "1.0.0" = Some (Semver.mkVersion 1 0 0 None None).
Proof. reflexivity. Qed.

Example parse_prerelease_build :
  Semver.parse "0.0.0-rc.1+b7" =
  Some (Semver.mkVersion 0 0 0 (Some "rc.1") (Some "b7")).
Proof. reflexivity. Qed.

Example parse_rejects_leading_zero : Semver.parse "01.0.0" = None.
Proof. reflexivity. Qed.

Example parse_rejects_two_parts : Semver.parse "1.0" = None.
Proof. reflexivity. Qed.

Example prerelease_precedes_release :
  Semver.compare (Semver.mkVersion 1 0 0 (Some "alpha") None)
                 (Semver.mkVersion 1 0 0 None None) = Lt.
Proof. reflexivity. Qed.

Example numeric_tags_compare_as_numbers :
  Semver.compare (Semver.mkVersion 1 0 0 (Some "rc.2") None)
                 (Semver.mkVersion 1 0 0 (Some "rc.10") None) = Lt.
Proof. reflexivity. Qed.

Example build_is_not_compared :
  Semver.compare (Semver.mkVersion 1 0 0 None (Some "b1"))
                 (Semver.mkVersion 1 0 0 None None) = Eq.
Proof. reflexivity. Qed.

Example arcname_drops_dots :
  Zip.arcname "/a/../b/./c.txt" = ["a"; "b"; "c.txt"].
Proof. reflexivity. Qed.

(** ** Version order *)

Section VersionOrder.

Lemma core_above_cmp v w :
  core_above v w -> Semver.cmp_core v w = Gt.
Proof.
  unfold core_above, Semver.cmp_core, Py.cmp_N.
  intros [H | [[E H] | (E1 & E2 & H)]].
  - apply N.compare_gt_iff in H. now rewrite H.
  - rewrite <- E, N.compare_refl.
    apply N.compare_gt_iff in H. now rewrite H.
  - rewrite <- E1, <- E2, !N.compare_refl.
    now apply N.compare_gt_iff.
Qed.

Lemma core_above_gt v w : core_above v w -> Semver.gt v w = true.
Proof.
  intros H. unfold Semver.gt, Semver.compare.
  now rewrite (core_above_cmp _ _ H).
Qed.

(** Against a release without prerelease, [_nat_cmp] never leaves the
    other side greater. *)
Lemma compare_release_core v a b c bld :
  Semver.compare v (Semver.mkVersion a b c None bld) = Gt ->
  Semver.cmp_core v (Semver.mkVersion a b c None bld) = Gt.
Proof.
  unfold Semver.compare.
  destruct (Semver.cmp_core v _) eqn:E; try done.
  simpl Semver.prerelease.
  destruct (Semver.prerelease v) as [p|] eqn:Ep; simpl.
  - destruct (Semver.nat_cmp (Some p) None) eqn:En; try done.
    + unfold Semver.falsy. destruct (String.eqb p "") eqn:Es; try done.
      apply String.eqb_eq in Es. subst p.
      vm_compute in En. discriminate.
    + unfold Semver.falsy. destruct (String.eqb p "") eqn:Es; try done.
      apply String.eqb_eq in Es. subst p.
      vm_compute in En. discriminate.
  - vm_compute. done.
Qed.

Lemma cmp_core_zero v bld :
  Semver.cmp_core v (Semver.mkVersion 0 0 0 None bld) = Gt <->
  (Semver.major v, Semver.minor v, Semver.patch v) <> (0, 0, 0)%N.
Proof.
  unfold Semver.cmp_core, Py.cmp_N. simpl.
  destruct v as [a b c p q]; simpl.
  destruct a, b, c; simpl; split; intros H; try done;
    try (intros [=]).
Qed.

Lemma gt_zero v :
  Semver.gt v (Semver.mkVersion 0 0 0 None None) = true <->
  (Semver.major v, Semver.minor v, Semver.patch v) <> (0, 0, 0)%N.
Proof.
  rewrite <- (cmp_core_zero v None). unfold Semver.gt. split.
  - destruct (Semver.compare v _) eqn:E; try done.
    intros _. now apply compare_release_core.
  - intros H. unfold Semver.compare. now rewrite H.
Qed.

End VersionOrder.

(** ** The first three steps of an install *)

Section InstallSteps.
Context {rt : PyRuntime}.

Lemma mkdir_exist_ok_root_child fs name :
  (forall c, fs !! [name] <> Some (File c)) ->
  Fs.mkdir_exist_ok [name] fs = (Return tt, <[[name] := Dir]> fs).
Proof.
  intros Hfile. unfold Fs.mkdir_exist_ok, Fs.mkdir, Fs.parent_fault.
  simpl. destruct (fs !! [name]) as [[c|]|] eqn:E.
  - now destruct (Hfile c).
  - simpl. rewrite E. now rewrite insert_id.
  - done.
Qed.

Lemma mkdir_exist_ok_blocked fs name c :
  fs !! [name] = Some (File c) ->
  Fs.mkdir_exist_ok [name] fs = (Raise (OSError FileExistsError [name]), fs).
Proof.
  intros E. unfold Fs.mkdir_exist_ok, Fs.mkdir, Fs.parent_fault.
  simpl. rewrite E. simpl. now rewrite E.
Qed.

Lemma write_metadata fs name data :
  fs !! [name] = Some Dir ->
  fs !! [name; INFO_FILE] <> Some Dir ->
  Fs.write_file [name; INFO_FILE] data fs
  = (Return tt, <[[name; INFO_FILE] := File data]> fs).
Proof.
  intros Hdir Hmeta. unfold Fs.write_file, Fs.parent_fault. simpl.
  rewrite Hdir. destruct (fs !! [name; INFO_FILE]) as [[c|]|]; done.
Qed.

Lemma installable_at_spec fs name :
  installable_at fs name = true <->
  (forall c, fs !! [name] <> Some (File c))
  /\ fs !! [name; INFO_FILE] <> Some Dir.
Proof.
  unfold installable_at. rewrite andb_true_iff.
  destruct (fs !! [name]) as [[c|]|];
    destruct (fs !! [name; INFO_FILE]) as [[c'|]|];
    split; intros [H1 H2]; try done;
    try (split; [intros ? ; done | done]);
    try (now destruct (H1 c)).
Qed.

(** Whatever the archive is, an install in a known library first puts the
    directory and the metadata document in place and then runs the
    validation; the archive is unpacked into the outcome of these. *)
Lemma install_library_steps self library_id file fs library :
  lookup_library self library_id = Some library ->
  installable_at fs library_id = true ->
  install_library self library_id file fs
  = match validate_vvlib self library_id file with
    | Raise e => (Raise e, with_metadata fs library_id library)
    | Return zf =>
        match Zip.extractall zf [library_id]
                (with_metadata fs library_id library) with
        | (Return _, fs') => (Return [library_id], fs')
        | (Raise e, fs') => (Raise e, fs')
        end
    end.
Proof.
  intros Hfind [Hfile Hmeta]%installable_at_spec.
  unfold install_library. unfold lookup_library in Hfind. rewrite Hfind.
  unfold bind at 1. rewrite mkdir_exist_ok_root_child by done.
  unfold bind at 1. simpl app.
  rewrite write_metadata;
    [ | apply lookup_insert_eq | now rewrite lookup_insert_ne ].
  fold (with_metadata fs library_id library).
  unfold bind at 1, pure_step.
  destruct (validate_vvlib self library_id file) as [zf|e]; [|done].
  unfold bind, ret.
  now destruct (Zip.extractall zf [library_id] _) as [[[]|e] fs'].
Qed.

Lemma with_metadata_document fs library_id library :
  with_metadata fs library_id library !! [library_id; INFO_FILE]
  = Some (File (json_dump (dict library))).
Proof. apply lookup_insert_eq. Qed.

Lemma with_metadata_directory fs library_id library :
  with_metadata fs library_id library !! [library_id] = Some Dir.
Proof.
  unfold with_metadata. rewrite lookup_insert_ne by done.
  apply lookup_insert_eq.
Qed.

Lemma with_metadata_elsewhere fs library_id library p :
  p <> [library_id] -> p <> [library_id; INFO_FILE] ->
  with_metadata fs library_id library !! p = fs !! p.
Proof.
  intros H1 H2. unfold with_metadata.
  now rewrite !lookup_insert_ne by done.
Qed.

End InstallSteps.

(** ** The validation of an upload *)

Section Validation.
Context {rt : PyRuntime}.

#[local] Arguments VvlibManifest_validate : simpl never.

Lemma validate_not_a_zip self library_id file :
  Zip.is_zipfile file = false ->
  validate_vvlib self library_id file
  = Raise (HTTPException 422 (not_a_zip_detail library_id)).
Proof. intros H. unfold validate_vvlib. now rewrite H. Qed.

Lemma validate_bad_crc self library_id zf name :
  Zip.testzip zf = Some name ->
  validate_vvlib self library_id (Zip.Archive zf)
  = Raise (HTTPException 422 (not_a_zip_detail library_id)).
Proof. intros H. unfold validate_vvlib. simpl. now rewrite H. Qed.

Lemma validate_at_gates self library_id zf m manifest_version :
  Zip.testzip zf = None ->
  load_manifest zf = Return (JObject m) ->
  passes_schema_and_version m ->
  m !! "manifest_version" = Some (JString manifest_version) ->
  validate_vvlib self library_id (Zip.Archive zf)
  = version_and_engine_gates self library_id zf m manifest_version.
Proof.
  intros Htz Hload [Hschema (version & Hver & Hvalid)] Hmv.
  unfold validate_vvlib, version_and_engine_gates. simpl.
  rewrite Htz, Hload. simpl. rewrite Hschema. simpl.
  rewrite Hver. simpl. rewrite Hvalid. simpl. rewrite Hmv. simpl.
  destruct (Semver.parse manifest_version) as [v|]; [|done].
  destruct (Semver.gt v _); [done|].
  now destruct (m !! "engine_uuid").
Qed.

(** Every way in which the validation of an opened archive with a
    decodable manifest can stop is a 422, as soon as one of the two gates
    is bound to refuse. *)
Lemma validate_refusal self library_id zf m :
  load_manifest zf = Return (JObject m) ->
  (forall manifest_version,
     passes_schema_and_version m ->
     m !! "manifest_version" = Some (JString manifest_version) ->
     exists detail,
       version_and_engine_gates self library_id zf m manifest_version
       = Raise (HTTPException 422 detail)) ->
  exists detail,
    validate_vvlib self library_id (Zip.Archive zf)
    = Raise (HTTPException 422 detail).
Proof.
  intros Hload Hgate.
  destruct (Zip.testzip zf) as [name|] eqn:Htz.
  { rewrite (validate_bad_crc _ _ _ name) by done. eauto. }
  destruct (VvlibManifest_validate (JObject m)) as [[]|e] eqn:Hschema.
  - pose proof Hschema as Hshape. unfold VvlibManifest_validate in Hshape.
    destruct (m !! "version") as [[| | |version| |]|] eqn:Hver; try done.
    destruct (m !! "manifest_version") as [[| | |mv| |]|] eqn:Hmv;
      try done.
    destruct (Semver.is_valid version) eqn:Hvalid.
    + rewrite (validate_at_gates self library_id zf m mv); try done.
      * apply Hgate; [|done]. split; [done|]. eauto.
      * split; [done|]. eauto.
    + unfold validate_vvlib. simpl. rewrite Htz, Hload. simpl.
      rewrite Hschema. simpl. rewrite Hver. simpl. rewrite Hvalid. simpl.
      eauto.
  - unfold validate_vvlib. simpl. rewrite Htz, Hload. simpl.
    rewrite Hschema.
    assert (e = ValidationError) as ->.
    { unfold VvlibManifest_validate in Hschema.
      repeat (match type of Hschema with
              | context [match ?x with _ => _ end] => destruct x
              end; try congruence). }
    simpl. eauto.
Qed.

End Validation.

(** ** Outcomes of [install_library] *)

Section InstallOutcomes.
Context {rt : PyRuntime}.

Lemma lookup_library_none self library_id :
  Forall (fun d => uuid d <> library_id) (downloadable_libraries self) ->
  lookup_library self library_id = None.
Proof.
  unfold lookup_library.
  induction 1 as [|d ds Hd _ IH]; [done|].
  simpl. destruct (String.eqb_spec (uuid d) library_id); done.
Qed.

(** C5. A [library_id] that is the uuid of no descriptor of the catalog
    makes [install_library] raise the 404 of the lookup, whatever the
    archive is, and the tree is the one the call started from: no package
    directory and no metadata document has been made. *)
Theorem install_unknown_library self library_id file fs :
  Forall (fun d => uuid d <> library_id) (downloadable_libraries self) ->
  install_library self library_id file fs
  = (Raise (HTTPException 404 (unknown_library_detail library_id)), fs).
Proof.
  intros Hnone%lookup_library_none.
  unfold install_library. unfold lookup_library in Hnone.
  now rewrite Hnone.
Qed.

Lemma install_elsewhere_before_unpacking self library_id file fs e p :
  validate_vvlib self library_id file = Raise e ->
  p <> [library_id] -> p <> [library_id; INFO_FILE] ->
  snd (install_library self library_id file fs) !! p = fs !! p.
Proof.
  intros Hval Hp1 Hp2.
  destruct (lookup_library self library_id) as [library|] eqn:Hfind.
  - destruct (installable_at fs library_id) eqn:Hinst.
    + rewrite (install_library_steps _ _ _ _ library), Hval by done.
      now apply with_metadata_elsewhere.
    + unfold install_library. unfold lookup_library in Hfind.
      rewrite Hfind. unfold bind at 1.
      destruct (fs !! [library_id]) as [[c|]|] eqn:Hdir.
      * now rewrite (mkdir_exist_ok_blocked _ _ c).
      * rewrite mkdir_exist_ok_root_child by (intros c; congruence).
        unfold bind at 1. unfold Fs.write_file at 1, Fs.parent_fault.
        simpl. rewrite lookup_insert_eq.
        unfold installable_at in Hinst. rewrite Hdir in Hinst.
        rewrite lookup_insert_ne by done.
        destruct (fs !! [library_id; INFO_FILE]) as [[c|]|]; try done.
        simpl. now rewrite lookup_insert_ne.
      * unfold installable_at in Hinst. rewrite Hdir in Hinst.
        rewrite mkdir_exist_ok_root_child by (intros c; congruence).
        unfold bind at 1. unfold Fs.write_file at 1, Fs.parent_fault.
        simpl. rewrite lookup_insert_eq.
        rewrite lookup_insert_ne by done.
        destruct (fs !! [library_id; INFO_FILE]) as [[c|]|]; try done.
        simpl. now rewrite lookup_insert_ne.
  - unfold install_library. unfold lookup_library in Hfind.
    now rewrite Hfind.
Qed.

(** C1. When the validation of the upload stops with an exception (zip
    check, CRC self-test, manifest missing or undecodable, schema,
    [version], [manifest_version], engine), no path of the tree other than
    the package directory and its metadata document differs from the tree
    before the call, so no entry of the archive has been unpacked; for a
    library of the catalog whose directory and document can be made, the
    call raises that very exception and leaves the directory with the
    metadata document of the descriptor in it.  Conversely a path that
    did change, other than these two, means the validation returned. *)
Theorem install_unpacks_only_after_validation self library_id file fs :
  (forall e,
     validate_vvlib self library_id file = Raise e ->
     (forall p, p <> [library_id] -> p <> [library_id; INFO_FILE] ->
                snd (install_library self library_id file fs) !! p = fs !! p)
     /\ (forall library,
           lookup_library self library_id = Some library ->
           installable_at fs library_id = true ->
           install_library self library_id file fs
           = (Raise e, with_metadata fs library_id library)
           /\ with_metadata fs library_id library !! [library_id]
              = Some Dir
           /\ with_metadata fs library_id library
                !! [library_id; INFO_FILE]
              = Some (File (json_dump (dict library)))))
  /\ (forall p, p <> [library_id] -> p <> [library_id; INFO_FILE] ->
        snd (install_library self library_id file fs) !! p <> fs !! p ->
        exists zf, validate_vvlib self library_id file = Return zf).
Proof.
  split.
  - intros e Hval. split.
    + intros p. now apply install_elsewhere_before_unpacking with e.
    + intros library Hfind Hinst.
      rewrite (install_library_steps _ _ _ _ library), Hval by done.
      split; [done|].
      split; [apply with_metadata_directory|apply with_metadata_document].
  - intros p Hp1 Hp2 Hchanged.
    destruct (validate_vvlib self library_id file) as [zf|e] eqn:Hval;
      [eauto|].
    destruct Hchanged.
    now apply install_elsewhere_before_unpacking with e.
Qed.

(** C3. With any supported manifest version, an archive whose manifest
    carries a parsable [manifest_version] above it (major, then minor,
    then patch, as numbers) is refused with a 422 and nothing is unpacked;
    when the archive and the rest of the manifest pass their checks, the
    422 is the one of the version gate. *)
Theorem install_rejects_newer_manifest_version
    self library_id file fs library m manifest_version v :
  lookup_library self library_id = Some library ->
  installable_at fs library_id = true ->
  embeds_manifest file m ->
  m !! "manifest_version" = Some (JString manifest_version) ->
  Semver.parse manifest_version = Some v ->
  core_above v (supported_vvlib_version self) ->
  (exists detail,
     install_library self library_id file fs
     = (Raise (HTTPException 422 detail),
        with_metadata fs library_id library))
  /\ (sound_archive file -> passes_schema_and_version m ->
      install_library self library_id file fs
      = (Raise (HTTPException 422 (unsupported_detail library_id)),
         with_metadata fs library_id library)).
Proof.
  intros Hfind Hinst (zf & -> & Hload) Hmv Hparse Habove.
  rewrite (install_library_steps _ _ _ _ library) by done.
  assert (version_and_engine_gates self library_id zf m manifest_version
          = Raise (HTTPException 422 (unsupported_detail library_id)))
    as Hgate.
  { unfold version_and_engine_gates.
    now rewrite Hparse, (core_above_gt _ _ Habove). }
  split.
  - destruct (validate_refusal self library_id zf m Hload) as [detail ->].
    + intros mv' _ Hmv'. rewrite Hmv in Hmv'.
      injection Hmv' as <-. eauto.
    + eauto.
  - intros (zf' & [= <-] & Htz) Hschema.
    now rewrite (validate_at_gates _ _ _ m manifest_version), Hgate.
Qed.

(** C4. An archive whose manifest names another engine than the host's
    is refused with a 422 and nothing is unpacked, whatever [version] and
    [manifest_version] are; when the manifest passes the schema and the
    version checks, the 422 is the one of the engine check. *)
Theorem install_rejects_other_engine
    self library_id file fs library m engine :
  lookup_library self library_id = Some library ->
  installable_at fs library_id = true ->
  embeds_manifest file m ->
  m !! "engine_uuid" = Some (JString engine) ->
  engine <> engine_uuid self ->
  (exists detail,
     install_library self library_id file fs
     = (Raise (HTTPException 422 detail),
        with_metadata fs library_id library))
  /\ (forall manifest_version v,
        sound_archive file -> passes_schema_and_version m ->
        m !! "manifest_version" = Some (JString manifest_version) ->
        Semver.parse manifest_version = Some v ->
        Semver.gt v (supported_vvlib_version self) = false ->
        install_library self library_id file fs
        = (Raise (HTTPException 422 (other_engine_detail self library_id)),
           with_metadata fs library_id library)).
Proof.
  intros Hfind Hinst (zf & -> & Hload) Hengine Hne.
  rewrite (install_library_steps _ _ _ _ library) by done.
  assert (ne_str (JString engine) (engine_uuid self) = true) as Hneb.
  { simpl. now destruct (String.eqb_spec engine (engine_uuid self)). }
  split.
  - destruct (validate_refusal self library_id zf m Hload) as [detail ->].
    + intros mv _ _. unfold version_and_engine_gates.
      destruct (Semver.parse mv) as [v|]; [|eauto].
      destruct (Semver.gt v _); [eauto|].
      rewrite Hengine, Hneb. eauto.
    + eauto.
  - intros mv v (zf' & [= <-] & Htz) Hschema Hmv Hparse Hgt.
    rewrite (validate_at_gates _ _ _ m mv) by done.
    unfold version_and_engine_gates.
    now rewrite Hparse, Hgt, Hengine, Hneb.
Qed.

(** C6, as the code has it.  An upload that is not a zip file and an
    archive with a member that fails the CRC self-test are refused with
    the same status 422 and the same reason string, which names the
    library and says that the file is invalid. *)
Theorem archive_checks_share_one_error self library_id file :
  (Zip.is_zipfile file = false ->
   validate_vvlib self library_id file
   = Raise (HTTPException 422 (not_a_zip_detail library_id)))
  /\ (forall zf name,
        file = Zip.Archive zf -> Zip.testzip zf = Some name ->
        validate_vvlib self library_id file
        = Raise (HTTPException 422 (not_a_zip_detail library_id))).
Proof.
  split.
  - apply validate_not_a_zip.
  - intros zf name -> Htz. now apply validate_bad_crc with name.
Qed.

(** C2, as the code has it.  Without a configured version the manager
    supports 0.0.0, and a manifest that gets to the version gate is
    refused there with a 422 exactly when major, minor and patch of its
    [manifest_version] are not all 0; a prerelease or a build suffix
    after 0.0.0 does not make it refused. *)
Theorem unconfigured_version_admits_zero_core
    brand_name engine_name engine catalog :
  let self :=
    mkLibraryManager (Semver.mkVersion 0 0 0 None None)
                     brand_name engine_name engine catalog in
  LibraryManager_init None brand_name engine_name engine catalog
  = Return self
  /\ forall library_id zf m manifest_version v,
       Zip.testzip zf = None ->
       load_manifest zf = Return (JObject m) ->
       passes_schema_and_version m ->
       m !! "manifest_version" = Some (JString manifest_version) ->
       Semver.parse manifest_version = Some v ->
       ((Semver.major v, Semver.minor v, Semver.patch v) <> (0, 0, 0)%N ->
        validate_vvlib self library_id (Zip.Archive zf)
        = Raise (HTTPException 422 (unsupported_detail library_id))
        /\ forall fs library,
             lookup_library self library_id = Some library ->
             installable_at fs library_id = true ->
             install_library self library_id (Zip.Archive zf) fs
             = (Raise (HTTPException 422 (unsupported_detail library_id)),
                with_metadata fs library_id library))
       /\ ((Semver.major v, Semver.minor v, Semver.patch v) = (0, 0, 0)%N ->
           m !! "engine_uuid" = Some (JString engine) ->
           validate_vvlib self library_id (Zip.Archive zf) = Return zf).
Proof.
  intros self. split; [done|].
  intros library_id zf m mv v Htz Hload Hschema Hmv Hparse.
  rewrite (validate_at_gates _ _ _ m mv) by done.
  unfold version_and_engine_gates. rewrite Hparse.
  split.
  - intros Hcore%gt_zero. simpl supported_vvlib_version.
    rewrite Hcore. split; [done|].
    intros fs library Hfind Hinst.
    rewrite (install_library_steps _ _ _ _ library) by done.
    rewrite (validate_at_gates _ _ _ m mv) by done.
    unfold version_and_engine_gates. rewrite Hparse.
    simpl supported_vvlib_version. now rewrite Hcore.
  - intros Hcore Hengine.
    destruct (Semver.gt v (supported_vvlib_version self)) eqn:Hgt.
    { apply gt_zero in Hgt. done. }
    rewrite Hengine. simpl. now rewrite String.eqb_refl.
Qed.

End InstallOutcomes.

(** ** The listing of installed libraries *)

Section Listing.
Context {rt : PyRuntime}.

Lemma read_library_info_eq name fs :
  read_library_info name fs = (library_info_at fs name, fs).
Proof.
  unfold library_info_at, read_library_info, bind, pure_step, Fs.read_file.
  destruct (Fs.parent_fault fs [name; INFO_FILE]); [done|].
  destruct (fs !! [name; INFO_FILE]) as [[raw|]|]; try done.
  now destruct (json_load raw).
Qed.

Lemma library_info_at_unfold fs name :
  library_info_at fs name
  = match fs !! [name] with
    | Some Dir =>
        match fs !! [name; INFO_FILE] with
        | Some (File raw) =>
            let? info := json_load raw in InstalledLibraryInfo_new info true
        | Some Dir => Raise (OSError IsADirectoryError [name; INFO_FILE])
        | None => Raise (OSError FileNotFoundError [name; INFO_FILE])
        end
    | Some (File _) => Raise (OSError NotADirectoryError [name; INFO_FILE])
    | None => Raise (OSError FileNotFoundError [name; INFO_FILE])
    end.
Proof.
  unfold library_info_at, read_library_info, bind, pure_step, Fs.read_file,
    Fs.parent_fault, Fs.dirname.
  simpl.
  destruct (fs !! [name]) as [[c|]|]; try done.
  destruct (fs !! [name; INFO_FILE]) as [[raw|]|]; try done.
  now destruct (json_load raw).
Qed.

(** The entry of a subdirectory depends on the directory node and on the
    metadata document only. *)
Lemma library_info_at_ext fs fs' name :
  fs !! [name] = fs' !! [name] ->
  fs !! [name; INFO_FILE] = fs' !! [name; INFO_FILE] ->
  library_info_at fs name = library_info_at fs' name.
Proof. intros H1 H2. now rewrite !library_info_at_unfold, H1, H2. Qed.

(** The failures of reading an entry: the document is missing or is a
    directory, its bytes are not json text, or the value is not a fit
    keyword mapping. *)
Lemma library_info_at_raise fs name e :
  fs !! [name] = Some Dir ->
  library_info_at fs name = Raise e ->
  e = OSError FileNotFoundError [name; INFO_FILE]
  \/ e = OSError IsADirectoryError [name; INFO_FILE]
  \/ e = ValueError \/ e = TypeError \/ e = ValidationError.
Proof.
  intros Hdir. rewrite library_info_at_unfold, Hdir.
  destruct (fs !! [name; INFO_FILE]) as [[raw|]|]; simpl;
    [|intros [= <-]; auto..].
  unfold json_load.
  destruct (utf8_decode raw) as [text|]; simpl; [|intros [= <-]; auto].
  destruct (json_loads text) as [value|]; simpl; [|intros [= <-]; auto].
  destruct value as [| | | | |kwargs]; simpl;
    try (intros [= <-]; auto 6).
  destruct (kwargs !! "uninstallable"); [intros [= <-]; auto 6|].
  destruct (BaseLibraryInfo_fields kwargs); [done|intros [= <-]; auto 6].
Qed.

Lemma library_info_at_unreadable fs name :
  fs !! [name] = Some Dir ->
  ~ readable_metadata fs name ->
  exists e, library_info_at fs name = Raise e.
Proof.
  intros Hdir Hunreadable. rewrite library_info_at_unfold, Hdir.
  destruct (fs !! [name; INFO_FILE]) as [[raw|]|] eqn:Hdoc; simpl; eauto.
  destruct (json_load raw) as [value|e] eqn:Hload; simpl; eauto.
  destruct Hunreadable. exists raw, value. eauto.
Qed.

(** Every entry the listing builds carries [uninstallable=True]. *)
Lemma library_info_at_uninstallable fs name info :
  library_info_at fs name = Return info -> uninstallable info = true.
Proof.
  rewrite library_info_at_unfold.
  destruct (fs !! [name]) as [[c|]|]; try done.
  destruct (fs !! [name; INFO_FILE]) as [[raw|]|]; try done.
  destruct (json_load raw) as [value|e]; [|done]. simpl.
  destruct value as [| | | | |kwargs]; try done. simpl.
  destruct (kwargs !! "uninstallable"); [done|].
  destruct (BaseLibraryInfo_fields kwargs); [|done].
  now intros [= <-].
Qed.

Lemma isdir_child fs name :
  Fs.isdir fs [name] = true <-> fs !! [name] = Some Dir.
Proof.
  unfold Fs.isdir. destruct (fs !! [name]) as [[c|]|]; split; done.
Qed.

(** The loop over any sequence of entries: it returns when each
    subdirectory among them has a good entry, and then adds exactly these;
    otherwise it raises what the first bad subdirectory raises. *)
Lemma scan_libraries_spec names : forall library fs,
  match scan_libraries names library fs with
  | (Return m, fs') =>
      fs' = fs
      /\ Forall (fun n => Fs.isdir fs [n] = true ->
                          exists info, library_info_at fs n = Return info)
                names
      /\ forall name,
           m !! name
           = if bool_decide (name ∈ names) && Fs.isdir fs [name]
             then match library_info_at fs name with
                  | Return info => Some info
                  | Raise _ => None
                  end
             else library !! name
  | (Raise e, fs') =>
      fs' = fs
      /\ exists before name after,
           names = before ++ name :: after
           /\ Fs.isdir fs [name] = true
           /\ library_info_at fs name = Raise e
           /\ Forall (fun n => Fs.isdir fs [n] = true ->
                               exists info, library_info_at fs n = Return info)
                     before
  end.
Proof.
  induction names as [|n names IH]; intros library fs.
  - simpl. repeat split; done.
  - cbn [scan_libraries]. unfold bind at 1, get_tree.
    destruct (Fs.isdir fs [n]) eqn:Hdir.
    + unfold bind at 1. rewrite read_library_info_eq.
      destruct (library_info_at fs n) as [info|e] eqn:Hinfo.
      * specialize (IH (<[n := info]> library) fs).
        destruct (scan_libraries names _ fs) as [[m|e] fs'].
        -- destruct IH as (-> & Hall & IH). split; [done|].
           split; [constructor; eauto|]. intros name.
           rewrite IH.
           destruct (decide (name = n)) as [->|Hne].
           ++ rewrite (bool_decide_eq_true_2 (n ∈ n :: names))
                by apply list_elem_of_here.
              rewrite Hdir, Hinfo. simpl.
              destruct (bool_decide (n ∈ names)); simpl;
                [done|apply lookup_insert_eq].
           ++ rewrite lookup_insert_ne by done.
              assert (bool_decide (name ∈ n :: names)
                      = bool_decide (name ∈ names)) as ->; [|done].
              apply bool_decide_ext. rewrite elem_of_cons. tauto.
        -- destruct IH as [-> (before & name & after & -> & H1 & H2 & H3)].
           split; [done|].
           exists (n :: before), name, after.
           repeat split; try done.
           constructor; [|done]. eauto.
      * split; [done|]. exists [], n, names. repeat split; done.
    + specialize (IH library fs).
      destruct (scan_libraries names _ fs) as [[m|e] fs'].
      * destruct IH as (-> & Hall & IH). split; [done|].
        split; [constructor; [congruence|done]|]. intros name.
        rewrite IH.
        destruct (decide (name = n)) as [->|Hne].
        -- rewrite Hdir, !andb_false_r. done.
        -- assert (bool_decide (name ∈ n :: names)
                   = bool_decide (name ∈ names)) as ->; [|done].
           apply bool_decide_ext. rewrite elem_of_cons. tauto.
      * destruct IH as [-> (before & name & after & -> & H1 & H2 & H3)].
        split; [done|].
        exists (n :: before), name, after.
        repeat split; try done.
        constructor; [|done]. intros Hn. congruence.
Qed.

Lemma iterdir_spec fs name :
  name ∈ Fs.iterdir fs <-> is_Some (fs !! [name]).
Proof.
  unfold Fs.iterdir. rewrite list_elem_of_omap. split.
  - intros ([p nd] & Hin & Hname).
    apply elem_of_map_to_list in Hin.
    destruct p as [|x [|y p]]; try done.
    injection Hname as ->. eauto.
  - intros [nd Hnd]. exists ([name], nd). split; [|done].
    now apply elem_of_map_to_list.
Qed.

(** The listing never changes the tree. *)
Lemma installed_libraries_tree fs :
  snd (installed_libraries fs) = fs.
Proof.
  unfold installed_libraries, bind, get_tree.
  pose proof (scan_libraries_spec (Fs.iterdir fs) ∅ fs) as H.
  destruct (scan_libraries _ _ fs) as [[m|e] fs']; now destruct H.
Qed.

Lemma installed_libraries_eq fs :
  installed_libraries fs = (fst (installed_libraries fs), fs).
Proof.
  rewrite <- (installed_libraries_tree fs) at 3.
  now destruct (installed_libraries fs).
Qed.

(** A listing that returns has found a good entry in every
    subdirectory. *)
Lemma installed_libraries_all_good fs m name :
  fst (installed_libraries fs) = Return m ->
  fs !! [name] = Some Dir ->
  exists info, library_info_at fs name = Return info.
Proof.
  unfold installed_libraries, bind, get_tree.
  pose proof (scan_libraries_spec (Fs.iterdir fs) ∅ fs) as H.
  destruct (scan_libraries _ _ fs) as [[m'|e] fs']; [|done].
  destruct H as (_ & Hall & _). intros _ Hdir.
  rewrite Forall_forall in Hall. apply Hall.
  - apply iterdir_spec. eauto.
  - now apply isdir_child.
Qed.

(** A returned listing holds exactly the subdirectories of the root, each
    with the entry read from its metadata document. *)
Lemma installed_libraries_return fs m :
  fst (installed_libraries fs) = Return m ->
  forall name info,
    m !! name = Some info
    <-> fs !! [name] = Some Dir /\ library_info_at fs name = Return info.
Proof.
  unfold installed_libraries, bind, get_tree.
  pose proof (scan_libraries_spec (Fs.iterdir fs) ∅ fs) as H.
  destruct (scan_libraries _ _ fs) as [[m'|e] fs']; [|done].
  destruct H as (-> & _ & H). simpl. intros [= <-] name info.
  rewrite H, <- isdir_child.
  destruct (Fs.isdir fs [name]) eqn:Hdir.
  - rewrite bool_decide_eq_true_2.
    + simpl. destruct (library_info_at fs name); split;
        try done; try (intros [= ->]; done); try (intros [_ [= ->]]; done).
    + apply iterdir_spec. apply isdir_child in Hdir. eauto.
  - rewrite andb_false_r, lookup_empty. split; [done|]. now intros [? _].
Qed.

(** The listing returns as soon as every subdirectory has a good entry. *)
Lemma installed_libraries_total fs :
  (forall name, fs !! [name] = Some Dir ->
                exists info, library_info_at fs name = Return info) ->
  exists m, installed_libraries fs = (Return m, fs).
Proof.
  intros Hgood.
  unfold installed_libraries, bind, get_tree.
  pose proof (scan_libraries_spec (Fs.iterdir fs) ∅ fs) as H.
  destruct (scan_libraries _ _ fs) as [[m|e] fs'].
  - destruct H as (-> & _). eauto.
  - destruct H as [_ (before & name & after & _ & Hdir & Hinfo & _)].
    apply isdir_child in Hdir.
    destruct (Hgood name Hdir) as [info Hret]. congruence.
Qed.

(** A raised listing raises what a subdirectory raised, and all the
    subdirectories met before it were good. *)
Lemma installed_libraries_raise fs e :
  fst (installed_libraries fs) = Raise e ->
  exists before name after,
    Fs.iterdir fs = before ++ name :: after
    /\ fs !! [name] = Some Dir
    /\ library_info_at fs name = Raise e
    /\ Forall (fun n => fs !! [n] = Some Dir ->
                        exists info, library_info_at fs n = Return info)
              before.
Proof.
  unfold installed_libraries, bind, get_tree.
  pose proof (scan_libraries_spec (Fs.iterdir fs) ∅ fs) as H.
  destruct (scan_libraries _ _ fs) as [[m|e'] fs']; [done|].
  destruct H as [_ (before & name & after & Hsplit & Hdir & Hinfo & Hbefore)].
  simpl. intros [= <-]. exists before, name, after.
  repeat split; try done.
  - now apply isdir_child.
  - eapply Forall_impl; [exact Hbefore|].
    intros n Hn Hd. apply Hn. now apply isdir_child.
Qed.

End Listing.

(** ** Outcomes of the listing and of [uninstall_library] *)

Section UninstallOutcomes.
Context {rt : PyRuntime}.

(** C8. When a subdirectory of the root has no readable metadata document
    the listing raises: it returns no mapping at all, the tree is left as
    it was, and the exception is the read failure of a subdirectory (a
    missing document, a directory in its place, undecodable bytes, or a
    value that does not fit), namely of the first bad one met; it is the
    failure of this very subdirectory when the others are good. *)
Theorem listing_raises_on_unreadable_metadata fs name :
  fs !! [name] = Some Dir ->
  ~ readable_metadata fs name ->
  exists e culprit,
    installed_libraries fs = (Raise e, fs)
    /\ fs !! [culprit] = Some Dir
    /\ library_info_at fs culprit = Raise e
    /\ (e = OSError FileNotFoundError [culprit; INFO_FILE]
        \/ e = OSError IsADirectoryError [culprit; INFO_FILE]
        \/ e = ValueError \/ e = TypeError \/ e = ValidationError)
    /\ ((forall other, other <> name -> fs !! [other] = Some Dir ->
           exists info, library_info_at fs other = Return info) ->
        culprit = name).
Proof.
  intros Hdir Hunreadable.
  destruct (library_info_at_unreadable fs name Hdir Hunreadable)
    as [e0 Hbad].
  rewrite installed_libraries_eq.
  destruct (fst (installed_libraries fs)) as [m|e] eqn:Hlist.
  - destruct (installed_libraries_all_good fs m name Hlist Hdir)
      as [info Hgood].
    congruence.
  - destruct (installed_libraries_raise fs e Hlist)
      as (before & culprit & after & _ & Hcdir & Hcbad & _).
    exists e, culprit. repeat split; try done.
    + now apply (library_info_at_raise fs).
    + intros Hothers. destruct (decide (culprit = name)) as [|Hne]; [done|].
      destruct (Hothers culprit Hne Hcdir) as [info Hgood]. congruence.
Qed.

Lemma listing_never_http fs status detail :
  fst (installed_libraries fs) <> Raise (HTTPException status detail).
Proof.
  intros Hlist.
  destruct (installed_libraries_raise fs _ Hlist)
    as (_ & culprit & _ & _ & Hdir & Hbad & _).
  destruct (library_info_at_raise fs culprit _ Hdir Hbad)
    as [?|[?|[?|[?|?]]]]; done.
Qed.

Lemma uninstall_library_eq how library_id fs :
  uninstall_library how library_id fs
  = match fst (installed_libraries fs) with
    | Return m => uninstall_listed m how library_id fs
    | Raise e => (Raise e, fs)
    end.
Proof.
  unfold uninstall_library, bind. rewrite installed_libraries_eq.
  now destruct (fst (installed_libraries fs)).
Qed.

Lemma removed_lookup (fs : tree) (p q : path) :
  filter (fun '(q, _) => Fs.below p q = false) fs !! q
  = if Fs.below p q then None else fs !! q.
Proof.
  destruct (Fs.below p q) eqn:Hb.
  - apply map_lookup_filter_None. right. intros nd _. simpl. congruence.
  - destruct (fs !! q) as [nd|] eqn:Hq.
    + now apply map_lookup_filter_Some.
    + apply map_lookup_filter_None. now left.
Qed.

Lemma below_spec (p q : path) : Fs.below p q = true <-> p `prefix_of` q.
Proof. unfold Fs.below. apply bool_decide_eq_true. Qed.

(** C10. Every entry of a listing has [uninstallable] set, and
    [uninstall_library] never raises the 403 of the flag check, in any
    tree and whatever the deletion does. *)
Theorem uninstall_never_forbidden how library_id fs :
  (forall m name info,
     fst (installed_libraries fs) = Return m ->
     m !! name = Some info -> uninstallable info = true)
  /\ forall detail,
       fst (uninstall_library how library_id fs)
       <> Raise (HTTPException 403 detail).
Proof.
  assert (forall m name info,
            fst (installed_libraries fs) = Return m ->
            m !! name = Some info -> uninstallable info = true) as Hflag.
  { intros m name info Hlist Hin.
    apply (installed_libraries_return fs m Hlist) in Hin as [_ Hinfo].
    now apply library_info_at_uninstallable in Hinfo. }
  split; [exact Hflag|].
  intros detail. rewrite uninstall_library_eq.
  destruct (fst (installed_libraries fs)) as [m|e] eqn:Hlist.
  - unfold uninstall_listed.
    destruct (m !! library_id) as [info|] eqn:Hin; [|done].
    rewrite (Hflag m library_id info eq_refl Hin). simpl.
    destruct (Fs.rmtree how [library_id] fs) as [[[]|e] fs']; done.
  - simpl. intros [= ->]. now apply listing_never_http in Hlist.
Qed.

(** C7. [uninstall_library] raises the 404 exactly when the listing
    taken at its start returns without [library_id]; on a listing where
    the package is present with [uninstallable] unset, the rest of the
    function raises the 403 and leaves the tree as it is; and for a
    listed package whose deletion goes through, every path at or below
    the package directory is gone, the other paths are as before, and the
    next listing is the first one without [library_id]. *)
Theorem uninstall_outcomes how library_id fs :
  ((exists detail,
      fst (uninstall_library how library_id fs)
      = Raise (HTTPException 404 detail))
   <-> exists m, fst (installed_libraries fs) = Return m
                 /\ m !! library_id = None)
  /\ (forall m, fst (installed_libraries fs) = Return m ->
                m !! library_id = None ->
                uninstall_library how library_id fs
                = (Raise (HTTPException 404
                            (not_installed_detail library_id)), fs))
  /\ (forall listing info,
        listing !! library_id = Some info ->
        uninstallable info = false ->
        uninstall_listed listing how library_id fs
        = (Raise (HTTPException 403 (not_removable_detail library_id)), fs))
  /\ (forall m info,
        fst (installed_libraries fs) = Return m ->
        m !! library_id = Some info ->
        exists fs',
          uninstall_library Fs.Completes library_id fs = (Return tt, fs')
          /\ (forall p, [library_id] `prefix_of` p -> fs' !! p = None)
          /\ (forall p, ~ [library_id] `prefix_of` p -> fs' !! p = fs !! p)
          /\ installed_libraries fs' = (Return (delete library_id m), fs')).
Proof.
  split; [|split; [|split]].
  - rewrite uninstall_library_eq. split.
    + intros [detail Hraise].
      destruct (fst (installed_libraries fs)) as [m|e] eqn:Hlist.
      * exists m. split; [done|].
        unfold uninstall_listed in Hraise.
        destruct (m !! library_id) as [info|]; [|done].
        destruct (negb (uninstallable info)); [done|].
        now destruct (Fs.rmtree how [library_id] fs) as [[[]|e] fs'].
      * simpl in Hraise. injection Hraise as ->.
        now apply listing_never_http in Hlist.
    + intros (m & -> & Hnone). unfold uninstall_listed. rewrite Hnone.
      simpl. eauto.
  - intros m Hlist Hnone. rewrite uninstall_library_eq, Hlist.
    unfold uninstall_listed. now rewrite Hnone.
  - intros listing info Hin Hflag. unfold uninstall_listed.
    now rewrite Hin, Hflag.
  - intros m info Hlist Hin.
    pose proof (installed_libraries_return fs m Hlist) as Hm.
    destruct (Hm library_id info) as [[Hdir Hinfo] _]; [done|].
    set (fs' := filter (fun '(q, _) => Fs.below [library_id] q = false) fs).
    exists fs'.
    assert (forall p, [library_id] `prefix_of` p -> fs' !! p = None)
      as Hgone.
    { intros p Hp%below_spec. unfold fs'. now rewrite removed_lookup, Hp. }
    assert (forall p, ~ [library_id] `prefix_of` p -> fs' !! p = fs !! p)
      as Hkept.
    { intros p Hp. unfold fs'. rewrite removed_lookup.
      destruct (Fs.below [library_id] p) eqn:Hb; [|done].
      now apply below_spec in Hb. }
    split; [|split; [done|split; [done|]]].
    + rewrite uninstall_library_eq, Hlist. unfold uninstall_listed.
      rewrite Hin.
      rewrite (library_info_at_uninstallable _ _ _ Hinfo). simpl.
      unfold Fs.rmtree. now rewrite Hdir.
    + assert (forall name, name <> library_id ->
                fs' !! [name] = fs !! [name]
                /\ library_info_at fs' name = library_info_at fs name)
        as Hsame.
      { intros name Hne.
        assert (fs' !! [name] = fs !! [name]) as H1.
        { apply Hkept. intros [k Hk]. simpl in Hk. congruence. }
        split; [done|].
        apply library_info_at_ext; [done|].
        apply Hkept. intros [k Hk]. simpl in Hk. congruence. }
      destruct (installed_libraries_total fs') as [m' Hlist'].
      { intros name Hd.
        destruct (decide (name = library_id)) as [->|Hne].
        - rewrite Hgone in Hd; done.
        - destruct (Hsame name Hne) as [H1 H2]. rewrite H2.
          rewrite H1 in Hd.
          now apply (installed_libraries_all_good fs m). }
      rewrite Hlist'. f_equal. f_equal.
      apply map_eq. intros name.
      pose proof (installed_libraries_return fs' m') as Hm'.
      rewrite Hlist' in Hm'. specialize (Hm' eq_refl).
      destruct (decide (name = library_id)) as [->|Hne].
      * rewrite lookup_delete_eq.
        destruct (m' !! library_id) as [i|] eqn:Hi; [|done].
        apply Hm' in Hi as [Hd _]. rewrite Hgone in Hd; done.
      * rewrite lookup_delete_ne by done.
        destruct (Hsame name Hne) as [H1 H2].
        apply option_eq. intros i. rewrite Hm', Hm, H1, H2. done.
Qed.

End UninstallOutcomes.

(** ** Unpacking an archive twice *)

Section Unpacking.
Context {rt : PyRuntime}.

Lemma covers_refl t : covers t t.
Proof. intros p nd H. eauto. Qed.

Lemma covers_trans u t s : covers u t -> covers t s -> covers u s.
Proof.
  intros H1 H2 p nd Hp.
  destruct (H2 p nd Hp) as (nd1 & Hp1 & Hk1).
  destruct (H1 p nd1 Hp1) as (nd2 & Hp2 & Hk2).
  exists nd2. split; [done|congruence].
Qed.

(** A step that leaves the nodes it finds as they are. *)
Lemma keeps_covers (t t' : tree) :
  (forall p, is_Some (t !! p) -> t' !! p = t !! p) -> covers t' t.
Proof.
  intros H p nd Hp. exists nd. split; [|done].
  rewrite H; [done|]. eauto.
Qed.

Lemma mkdir_keeps p t r t' :
  Fs.mkdir p t = (r, t') ->
  (forall q, is_Some (t !! q) -> t' !! q = t !! q)
  /\ (r = Return tt -> t' !! p = Some Dir).
Proof.
  unfold Fs.mkdir.
  destruct (Fs.parent_fault t p); [intros [= <- <-]; done|].
  destruct (Fs.exists_ t p) eqn:Hex; intros [= <- <-]; [done|].
  split; [|intros _; apply lookup_insert_eq].
  intros q [nd Hq]. apply lookup_insert_ne. intros ->.
  unfold Fs.exists_ in Hex. destruct q; [done|]. now rewrite Hq in Hex.
Qed.

Lemma makedirs_rev_keeps rp : forall t r t',
  Fs.makedirs_rev rp t = (r, t') ->
  (forall q, is_Some (t !! q) -> t' !! q = t !! q)
  /\ (r = Return tt -> rp <> [] -> t' !! rev rp = Some Dir).
Proof.
  induction rp as [|name rhead IH]; intros t r t'.
  - simpl. unfold ret. intros [= <- <-]. done.
  - cbn [Fs.makedirs_rev].
    destruct (Fs.exists_ t (rev rhead)) eqn:Hex.
    + intros [Hkeep Hdir]%mkdir_keeps. split; [done|]. auto.
    + destruct (Fs.makedirs_rev rhead t) as [rh th] eqn:Hhead.
      destruct (IH _ _ _ Hhead) as [Hkeep_h _].
      assert (forall r1 t1,
                Fs.mkdir (rev (name :: rhead)) th = (r1, t1) ->
                (forall q, is_Some (t !! q) -> t1 !! q = t !! q)
                /\ (r1 = Return tt -> t1 !! rev (name :: rhead) = Some Dir))
        as Hthen.
      { intros r1 t1 [Hk Hd]%mkdir_keeps. split; [|done].
        intros q Hq. rewrite Hk, Hkeep_h; [done..|].
        now rewrite Hkeep_h. }
      destruct rh as [[]|e].
      * intros Hm. destruct (Hthen _ _ Hm). split; auto.
      * destruct e as [s d|[] f| | | | |];
          try (intros [= <- <-]; split; [done|discriminate]).
        intros Hm. destruct (Hthen _ _ Hm). split; auto.
Qed.

Lemma makedirs_keeps p t r t' :
  Fs.makedirs p t = (r, t') ->
  (forall q, is_Some (t !! q) -> t' !! q = t !! q)
  /\ (r = Return tt -> p <> [] -> t' !! p = Some Dir).
Proof.
  unfold Fs.makedirs. intros [Hk Hd]%makedirs_rev_keeps. split; [done|].
  intros Hr Hp. rewrite <- (rev_involutive p). apply Hd; [done|].
  intros Hrev. apply Hp. now rewrite <- (rev_involutive p), Hrev.
Qed.

Lemma extract_member_eq member targetpath t :
  Zip.extract_member member targetpath t
  = match upper_made member targetpath t with
    | (Return _, t1) =>
        if Zip.is_dir member then
          if Fs.isdir t1 (target_of member targetpath) then (Return tt, t1)
          else Fs.mkdir (target_of member targetpath) t1
        else
          Fs.write_file (target_of member targetpath)
                        (Zip.content member) t1
    | (Raise e, t1) => (Raise e, t1)
    end.
Proof.
  unfold Zip.extract_member, upper_made, target_of.
  unfold bind at 1, get_tree. unfold bind at 1.
  destruct (Fs.exists_ t _).
  - unfold ret at 1. destruct (Zip.is_dir member); [|done].
    unfold bind, get_tree. now destruct (Fs.isdir t _).
  - destruct (Fs.makedirs _ t) as [[[]|e] t1]; [|done].
    destruct (Zip.is_dir member); [|done].
    unfold bind, get_tree. now destruct (Fs.isdir t1 _).
Qed.

Lemma upper_made_keeps member targetpath t t1 :
  upper_made member targetpath t = (Return tt, t1) ->
  (forall q, is_Some (t !! q) -> t1 !! q = t !! q)
  /\ Fs.exists_ t1 (Fs.dirname (target_of member targetpath)) = true
  /\ (Fs.exists_ t (Fs.dirname (target_of member targetpath)) = false ->
      Fs.isdir t1 (Fs.dirname (target_of member targetpath)) = true).
Proof.
  unfold upper_made.
  destruct (Fs.exists_ t _) eqn:Hex.
  - intros [= <-]. done.
  - intros [Hk Hd]%makedirs_keeps. split; [done|].
    assert (Fs.dirname (target_of member targetpath) <> []) as Hne.
    { intros Hnil. now rewrite Hnil in Hex. }
    specialize (Hd eq_refl Hne).
    unfold Fs.exists_, Fs.isdir. rewrite Hd.
    now destruct (Fs.dirname _).
Qed.

Lemma dirname_shorter (q : path) : q <> [] -> Fs.dirname q <> q.
Proof.
  intros Hq Heq. unfold Fs.dirname in Heq.
  assert (List.length (removelast q) = List.length q) as Hlen
    by now rewrite Heq.
  destruct (exists_last Hq) as (q' & x & ->).
  rewrite removelast_last, length_app in Hlen. simpl in Hlen. lia.
Qed.

Lemma covers_exists u t p :
  covers u t -> Fs.exists_ t p = true -> Fs.exists_ u p = true.
Proof.
  intros Hc. unfold Fs.exists_. destruct p as [|x p]; [done|].
  destruct (t !! (x :: p)) as [nd|] eqn:Hp; [|done].
  destruct (Hc _ _ Hp) as (nd' & -> & _). done.
Qed.

Lemma covers_isdir u t p :
  covers u t -> Fs.isdir t p = true -> Fs.isdir u p = true.
Proof.
  intros Hc. unfold Fs.isdir. destruct p as [|x p]; [done|].
  destruct (t !! (x :: p)) as [[c|]|] eqn:Hp; try done.
  destruct (Hc _ _ Hp) as (nd' & -> & Hk). now destruct nd'.
Qed.

Lemma covers_parent u t p :
  covers u t -> Fs.parent_fault t p = None -> Fs.parent_fault u p = None.
Proof.
  intros Hc. unfold Fs.parent_fault.
  destruct (Fs.dirname p) as [|x q]; [done|].
  destruct (t !! (x :: q)) as [[c|]|] eqn:Hp; try done.
  destruct (Hc _ _ Hp) as (nd' & -> & Hk). now destruct nd'.
Qed.

Lemma covers_file u t q c :
  covers u t -> q <> [] -> t !! q = Some (File c) -> Fs.isdir u q = false.
Proof.
  intros Hc Hne Hq. destruct (Hc _ _ Hq) as (nd' & Hu & Hk).
  unfold Fs.isdir. rewrite Hu. destruct q; [done|]. now destruct nd'.
Qed.

(** What a successful [_extract_member] has done. *)
Lemma extract_member_effect member targetpath t t' :
  Zip.extract_member member targetpath t = (Return tt, t') ->
  let q := target_of member targetpath in
  q <> [] ->
  Fs.exists_ t' (Fs.dirname q) = true
  /\ if Zip.is_dir member then
       Fs.isdir t' q = true
       /\ (forall p, is_Some (t !! p) -> t' !! p = t !! p)
     else
       Fs.parent_fault t' q = None
       /\ t' !! q = Some (File (Zip.content member))
       /\ (forall nd, t !! q = Some nd -> is_directory nd = false)
       /\ (forall p, p <> q -> is_Some (t !! p) -> t' !! p = t !! p).
Proof.
  intros Hrun q Hq. rewrite extract_member_eq in Hrun. fold q in Hrun.
  destruct (upper_made member targetpath t) as [[[]|e] t1] eqn:Hup;
    [|done].
  apply upper_made_keeps in Hup as (Hkeep & Hupper & _). fold q in Hupper.
  pose proof (dirname_shorter q Hq) as Hshort.
  assert (forall nd, Fs.exists_ (<[q := nd]> t1) (Fs.dirname q) = true)
    as Hupper'.
  { intros nd. unfold Fs.exists_ in *.
    destruct (Fs.dirname q) as [|x d] eqn:Hd; [done|].
    now rewrite lookup_insert_ne. }
  destruct (Zip.is_dir member).
  - destruct (Fs.isdir t1 q) eqn:Hisdir.
    + injection Hrun as <-. done.
    + apply mkdir_keeps in Hrun as Hm. destruct Hm as [Hk Hd].
      unfold Fs.mkdir in Hrun.
      destruct (Fs.parent_fault t1 q); [done|].
      destruct (Fs.exists_ t1 q); [done|]. injection Hrun as <-.
      split; [apply Hupper'|]. split.
      * unfold Fs.isdir. rewrite lookup_insert_eq. now destruct q.
      * intros p Hp. rewrite Hk, Hkeep; [done..|]. now rewrite Hkeep.
  - unfold Fs.write_file in Hrun.
    destruct (Fs.parent_fault t1 q) eqn:Hpar; [done|].
    destruct (Fs.isdir t1 q) eqn:Hisdir; [done|].
    injection Hrun as <-.
    split; [apply Hupper'|]. split; [|split; [|split]].
    + unfold Fs.parent_fault in *.
      destruct (Fs.dirname q) as [|x d] eqn:Hd; [done|].
      now rewrite lookup_insert_ne.
    + apply lookup_insert_eq.
    + intros nd Hnd. unfold Fs.isdir in Hisdir.
      rewrite Hkeep, Hnd in Hisdir by eauto.
      destruct q; [done|]. now destruct nd.
    + intros p Hp Hsome. rewrite lookup_insert_ne by done. now apply Hkeep.
Qed.

Lemma extract_member_covers member targetpath t t' :
  Zip.extract_member member targetpath t = (Return tt, t') ->
  target_of member targetpath <> [] ->
  covers t' t.
Proof.
  intros Hrun Hq.
  destruct (extract_member_effect _ _ _ _ Hrun Hq) as [_ Heff].
  destruct (Zip.is_dir member).
  - apply keeps_covers, Heff.
  - destruct Heff as (_ & Hfile & Hkind & Hkeep). intros p nd Hp.
    destruct (decide (p = target_of member targetpath)) as [->|Hne].
    + eexists. split; [exact Hfile|]. simpl. symmetry. eauto.
    + exists nd. split; [|done]. rewrite Hkeep; eauto.
Qed.

(** Unpacking a member into a tree that already has every node of the
    outcome: nothing is made, a file member is written over. *)
Lemma extract_member_again member targetpath t t' u :
  Zip.extract_member member targetpath t = (Return tt, t') ->
  target_of member targetpath <> [] ->
  covers u t' ->
  Zip.extract_member member targetpath u
  = (Return tt,
     if Zip.is_dir member then u
     else <[target_of member targetpath := File (Zip.content member)]> u).
Proof.
  intros Hrun Hq Hc.
  destruct (extract_member_effect _ _ _ _ Hrun Hq) as [Hupper Heff].
  rewrite extract_member_eq. unfold upper_made.
  rewrite (covers_exists u t' _ Hc Hupper).
  destruct (Zip.is_dir member).
  - destruct Heff as [Hisdir _].
    now rewrite (covers_isdir u t' _ Hc Hisdir).
  - destruct Heff as (Hpar & Hfile & _).
    unfold Fs.write_file.
    rewrite (covers_parent u t' _ Hc Hpar).
    now rewrite (covers_file u t' _ _ Hc Hq Hfile).
Qed.

Lemma target_of_nonempty member targetpath :
  targetpath <> [] -> target_of member targetpath <> [].
Proof.
  unfold target_of. intros Hne Happ.
  now apply app_eq_nil in Happ as [? _].
Qed.

(** One turn of the loop of [extractall] that returns: the name is the
    name of a member, and that member has been unpacked. *)
Lemma extractall_turn zf targetpath name t t' :
  (let* member := pure_step (Zip.getinfo zf name) in
   Zip.extract_member member targetpath) t = (Return tt, t') ->
  exists member,
    Zip.getinfo zf name = Return member
    /\ Zip.extract_member member targetpath t = (Return tt, t').
Proof.
  unfold bind, pure_step.
  destruct (Zip.getinfo zf name) as [member|e]; [|done]. eauto.
Qed.

Lemma extract_names_covers zf targetpath names :
  targetpath <> [] ->
  forall t fs1,
    for_each names
      (fun name => let* member := pure_step (Zip.getinfo zf name) in
                   Zip.extract_member member targetpath) t
    = (Return tt, fs1) ->
    covers fs1 t.
Proof.
  intros Hne. induction names as [|name names IH]; intros t fs1.
  - simpl. unfold ret. intros [= <-]. apply covers_refl.
  - cbn [for_each]. unfold bind at 1.
    destruct ((let* member := pure_step (Zip.getinfo zf name) in
               Zip.extract_member member targetpath) t)
      as [[[]|e] t'] eqn:Hturn; [|done].
    intros Hrest.
    apply extractall_turn in Hturn as (member & _ & Hrun).
    apply covers_trans with t'; [now apply IH|].
    apply (extract_member_covers member targetpath); [done|].
    now apply target_of_nonempty.
Qed.

(** The loop of [extractall], run again from a tree [u] that has every
    node of the outcome [fs1] of a first run from [t] and that agrees at
    each path with [t] or with [fs1], ends in [fs1]. *)
Lemma extract_names_again zf targetpath names :
  targetpath <> [] ->
  forall t u fs1,
    for_each names
      (fun name => let* member := pure_step (Zip.getinfo zf name) in
                   Zip.extract_member member targetpath) t
    = (Return tt, fs1) ->
    (forall p, u !! p = t !! p \/ u !! p = fs1 !! p) ->
    covers u fs1 ->
    for_each names
      (fun name => let* member := pure_step (Zip.getinfo zf name) in
                   Zip.extract_member member targetpath) u
    = (Return tt, fs1).
Proof.
  intros Hne. induction names as [|name names IH]; intros t u fs1.
  - simpl. unfold ret. intros [= <-] Hagree _. f_equal.
    apply map_eq. intros p. now destruct (Hagree p).
  - cbn [for_each]. unfold bind at 1.
    destruct ((let* member := pure_step (Zip.getinfo zf name) in
               Zip.extract_member member targetpath) t)
      as [[[]|e] t'] eqn:Hturn; [|done].
    intros Hrest Hagree Hcov.
    apply extractall_turn in Hturn as (member & Hinfo & Hrun).
    pose proof (target_of_nonempty member targetpath Hne) as Hq.
    pose proof (extract_names_covers zf targetpath names Hne _ _ Hrest)
      as Hmono.
    pose proof (extract_member_again member targetpath t t' u Hrun Hq
                  (covers_trans _ _ _ Hcov Hmono)) as Hagain.
    destruct (extract_member_effect _ _ _ _ Hrun Hq) as [_ Heff].
    unfold bind at 1. unfold bind at 1, pure_step. rewrite Hinfo, Hagain.
    (** a node that the first run made is in [u] already *)
    assert (forall p, t !! p = None -> is_Some (t' !! p) ->
                      is_Some (u !! p)) as Hmade.
    { intros p _ [nd Hnd].
      destruct (Hmono _ _ Hnd) as (nd1 & Hnd1 & _).
      destruct (Hcov _ _ Hnd1) as (nd2 & Hnd2 & _). eauto. }
    apply (IH t'); [done| |].
    + intros p. destruct (Zip.is_dir member).
      * destruct Heff as [_ Hkeep].
        destruct (Hagree p) as [Hl|Hr]; [|now right].
        destruct (t !! p) as [nd|] eqn:Hp.
        -- left. rewrite Hkeep, Hp; eauto.
        -- destruct (t' !! p) as [nd|] eqn:Hp'; [|now left].
           destruct (Hmade p Hp) as [nd' Hu]; [eauto|]. congruence.
      * destruct Heff as (_ & Hfile & _ & Hkeep).
        destruct (decide (p = target_of member targetpath)) as [->|Hnq].
        -- left. now rewrite lookup_insert_eq.
        -- rewrite lookup_insert_ne by done.
           destruct (Hagree p) as [Hl|Hr]; [|now right].
           destruct (t !! p) as [nd|] eqn:Hp.
           ++ left. rewrite Hkeep, Hp; eauto.
           ++ destruct (t' !! p) as [nd|] eqn:Hp'; [|now left].
              destruct (Hmade p Hp) as [nd' Hu]; [eauto|]. congruence.
    + destruct (Zip.is_dir member); [done|].
      destruct Heff as (_ & Hfile & _).
      intros p nd Hp.
      destruct (decide (p = target_of member targetpath)) as [->|Hnq].
      * rewrite lookup_insert_eq. eexists. split; [done|].
        destruct (Hmono _ _ Hfile) as (nd1 & Hnd1 & Hk).
        simpl in *. congruence.
      * rewrite lookup_insert_ne by done. now apply Hcov.
Qed.

(** An install that returns has found the library, made the directory
    and the document, validated the upload and unpacked it. *)
Lemma install_library_return self library_id file fs library_dir fs1 :
  install_library self library_id file fs = (Return library_dir, fs1) ->
  exists library zf,
    lookup_library self library_id = Some library
    /\ installable_at fs library_id = true
    /\ validate_vvlib self library_id file = Return zf
    /\ Zip.extractall zf [library_id] (with_metadata fs library_id library)
       = (Return tt, fs1)
    /\ library_dir = [library_id].
Proof.
  intros Hrun.
  destruct (lookup_library self library_id) as [library|] eqn:Hfind.
  - destruct (installable_at fs library_id) eqn:Hinst.
    + rewrite (install_library_steps _ _ _ _ library) in Hrun by done.
      destruct (validate_vvlib self library_id file) as [zf|e]; [|done].
      destruct (Zip.extractall zf _ _) as [[[]|e] fs'] eqn:Hunpack;
        [|done].
      injection Hrun as <- <-. exists library, zf. done.
    + exfalso. unfold install_library in Hrun.
      unfold lookup_library in Hfind. rewrite Hfind in Hrun.
      unfold bind at 1 in Hrun.
      unfold installable_at in Hinst.
      destruct (fs !! [library_id]) as [[c|]|] eqn:Hdir.
      * now rewrite (mkdir_exist_ok_blocked _ _ c) in Hrun.
      * rewrite mkdir_exist_ok_root_child in Hrun
          by (intros c; congruence).
        unfold bind at 1 in Hrun.
        unfold Fs.write_file at 1, Fs.parent_fault in Hrun.
        simpl in Hrun. rewrite lookup_insert_eq in Hrun.
        rewrite lookup_insert_ne in Hrun by done.
        destruct (fs !! [library_id; INFO_FILE]) as [[c|]|]; done.
      * rewrite mkdir_exist_ok_root_child in Hrun
          by (intros c; congruence).
        unfold bind at 1 in Hrun.
        unfold Fs.write_file at 1, Fs.parent_fault in Hrun.
        simpl in Hrun. rewrite lookup_insert_eq in Hrun.
        rewrite lookup_insert_ne in Hrun by done.
        destruct (fs !! [library_id; INFO_FILE]) as [[c|]|]; done.
  - unfold install_library in Hrun. unfold lookup_library in Hfind.
    now rewrite Hfind in Hrun.
Qed.

(** C9. An install that returns, run once more with the same library id
    and the same upload on the tree it left, returns again and leaves that
    very tree: the directory step does not raise, the metadata document
    and every unpacked file end up with the same bytes, and no path is
    added. *)
Theorem install_library_twice self library_id file fs library_dir fs1 :
  install_library self library_id file fs = (Return library_dir, fs1) ->
  install_library self library_id file fs1 = (Return library_dir, fs1)
  /\ Fs.mkdir_exist_ok [library_id] fs1 = (Return tt, fs1).
Proof.
  intros (library & zf & Hfind & Hinst & Hval & Hunpack & ->)
    %install_library_return.
  assert ([library_id] <> []) as Hne by done.
  pose proof (extract_names_covers zf [library_id] (Zip.namelist zf) Hne
                _ _ Hunpack) as Hmono.
  destruct (Hmono _ _ (with_metadata_directory fs library_id library))
    as (nd_dir & Hdir & Hkdir).
  destruct (Hmono _ _ (with_metadata_document fs library_id library))
    as (nd_doc & Hdoc & Hkdoc).
  destruct nd_dir as [c|]; [done|].
  destruct nd_doc as [c|]; [|done].
  assert (installable_at fs1 library_id = true) as Hinst1.
  { unfold installable_at. now rewrite Hdir, Hdoc. }
  split.
  - rewrite (install_library_steps _ _ _ _ library), Hval by done.
    unfold Zip.extractall.
    rewrite (extract_names_again zf [library_id] (Zip.namelist zf) Hne
               (with_metadata fs library_id library)
               (with_metadata fs1 library_id library) fs1); try done.
    + intros p.
      destruct (decide (p = [library_id; INFO_FILE])) as [->|Hp2].
      { left. now rewrite !with_metadata_document. }
      destruct (decide (p = [library_id])) as [->|Hp1].
      { right. now rewrite with_metadata_directory. }
      right. now apply with_metadata_elsewhere.
    + intros p nd Hp.
      destruct (decide (p = [library_id; INFO_FILE])) as [->|Hp2].
      { rewrite with_metadata_document. eexists. split; [done|].
        rewrite Hdoc in Hp. now injection Hp as <-. }
      destruct (decide (p = [library_id])) as [->|Hp1].
      { rewrite with_metadata_directory. eexists. split; [done|].
        rewrite Hdir in Hp. now injection Hp as <-. }
      rewrite with_metadata_elsewhere by done. eauto.
  - rewrite mkdir_exist_ok_root_child by (intros c'; congruence).
    now rewrite insert_id.
Qed.

End Unpacking.

(** ** Worked examples on the fixture runtime *)

Section Examples.
Import Fixture.

Example install_unpacks_the_archive :
  installed_tree !! ["lib-a"] = Some Dir
  /\ installed_tree !! ["lib-a"; INFO_FILE]
     = Some (File (dump (object_value descriptor_a)))
  /\ installed_tree !! ["lib-a"; "model"] = Some Dir
  /\ installed_tree !! ["lib-a"; "model"; "voice.bin"]
     = Some (File "payload")
  /\ installed_tree !! ["lib-a"; "vvlib_manifest.json"]
     = Some (File (object_text (manifest "1.0.0" "1.0.0" host_uuid)))
  /\ size installed_tree = 5.
Proof. repeat split; vm_compute; reflexivity. Qed.

Example listing_after_install :
  exists m,
    fst (@installed_libraries runtime installed_tree) = Return m
    /\ dom m = {["lib-a"]}.
Proof. eexists. split; [reflexivity|]. vm_compute. reflexivity. Qed.

Example broken_directory_is_not_caught :
  fst (@install_library runtime (manager (v 1 0 0)) "lib-a"
         Zip.BrokenDirectory ∅) = Raise BadZipFile.
Proof. reflexivity. Qed.

Example failed_deletion_is_a_500 :
  fst (@uninstall_library runtime (Fs.FailsLeaving ∅) "lib-a" installed_tree)
  = Raise (HTTPException 500
             "指定された音声ライブラリ lib-a の削除に失敗しました。").
Proof. vm_compute. reflexivity. Qed.

Lemma install_unknown_library_witness :
  Forall (fun d => uuid d <> "lib-b") (downloadable_libraries (manager (v 1 0 0)))
  /\ @install_library runtime (manager (v 1 0 0)) "lib-b" Zip.NotAZip ∅
     = (Raise (HTTPException 404 (unknown_library_detail "lib-b")), ∅).
Proof.
  assert (Forall (fun d => uuid d <> "lib-b")
                 (downloadable_libraries (manager (v 1 0 0)))) as Hnone.
  { repeat constructor. discriminate. }
  split; [exact Hnone|].
  exact (@install_unknown_library runtime (manager (v 1 0 0)) "lib-b" Zip.NotAZip ∅
           Hnone).
Defined.

Lemma install_unpacks_only_after_validation_witness :
  @validate_vvlib runtime (manager (v 1 0 0)) "lib-a" vvlib_bad_crc
  = Raise (HTTPException 422 (not_a_zip_detail "lib-a"))
  /\ @install_library runtime (manager (v 1 0 0)) "lib-a" vvlib_bad_crc ∅
     = (Raise (HTTPException 422 (not_a_zip_detail "lib-a")),
        @with_metadata runtime ∅ "lib-a" library_a)
  /\ @with_metadata runtime ∅ "lib-a" library_a !! ["lib-a"; "model"; "voice.bin"]
     = None.
Proof.
  assert (@validate_vvlib runtime (manager (v 1 0 0)) "lib-a" vvlib_bad_crc
          = Raise (HTTPException 422 (not_a_zip_detail "lib-a"))) as Hval
    by reflexivity.
  split; [exact Hval|].
  destruct (@install_unpacks_only_after_validation runtime (manager (v 1 0 0))
              "lib-a" vvlib_bad_crc ∅) as [Hraise _].
  destruct (Hraise _ Hval) as [_ Hknown].
  destruct (Hknown library_a) as (Hrun & _ & _).
  - reflexivity.
  - reflexivity.
  - split; [exact Hrun|reflexivity].
Defined.

Lemma install_rejects_newer_manifest_version_witness :
  core_above (v 2 0 0) (supported_vvlib_version (manager (v 1 0 0)))
  /\ @install_library runtime (manager (v 1 0 0)) "lib-a" (vvlib "2.0.0" host_uuid) ∅
     = (Raise (HTTPException 422 (unsupported_detail "lib-a")),
        @with_metadata runtime ∅ "lib-a" library_a).
Proof.
  assert (core_above (v 2 0 0) (supported_vvlib_version (manager (v 1 0 0))))
    as Habove by (left; reflexivity).
  split; [exact Habove|].
  destruct (@install_rejects_newer_manifest_version runtime (manager (v 1 0 0))
              "lib-a" (vvlib "2.0.0" host_uuid) ∅ library_a
              (manifest_object "2.0.0" host_uuid) "2.0.0" (v 2 0 0))
    as [_ Hgate].
  - reflexivity.
  - reflexivity.
  - eexists. split; reflexivity.
  - reflexivity.
  - reflexivity.
  - exact Habove.
  - apply Hgate.
    + eexists. split; reflexivity.
    + split; [reflexivity|]. eexists. split; reflexivity.
Defined.

Lemma install_rejects_other_engine_witness :
  "another-engine" <> engine_uuid (manager (v 1 0 0))
  /\ @install_library runtime (manager (v 1 0 0)) "lib-a"
       (vvlib "1.0.0" "another-engine") ∅
     = (Raise (HTTPException 422 (other_engine_detail (manager (v 1 0 0)) "lib-a")),
        @with_metadata runtime ∅ "lib-a" library_a).
Proof.
  assert ("another-engine" <> engine_uuid (manager (v 1 0 0))) as Hne
    by discriminate.
  split; [exact Hne|].
  destruct (@install_rejects_other_engine runtime (manager (v 1 0 0))
              "lib-a" (vvlib "1.0.0" "another-engine") ∅ library_a
              (manifest_object "1.0.0" "another-engine") "another-engine")
    as [_ Hgate].
  - reflexivity.
  - reflexivity.
  - eexists. split; reflexivity.
  - reflexivity.
  - exact Hne.
  - apply (Hgate "1.0.0" (v 1 0 0)).
    + eexists. split; reflexivity.
    + split; [reflexivity|]. eexists. split; reflexivity.
    + reflexivity.
    + reflexivity.
    + reflexivity.
Defined.

Lemma archive_checks_share_one_error_witness :
  Zip.is_zipfile Zip.NotAZip = false
  /\ @validate_vvlib runtime (manager (v 1 0 0)) "lib-a" Zip.NotAZip
     = Raise (HTTPException 422 (not_a_zip_detail "lib-a"))
  /\ Zip.testzip [Zip.mkZipInfo "a.bin" "payload" false] = Some "a.bin"
  /\ @validate_vvlib runtime (manager (v 1 0 0)) "lib-a"
       (Zip.Archive [Zip.mkZipInfo "a.bin" "payload" false])
     = Raise (HTTPException 422 (not_a_zip_detail "lib-a")).
Proof.
  split; [reflexivity|]. split.
  - apply (@archive_checks_share_one_error runtime (manager (v 1 0 0)) "lib-a"
             Zip.NotAZip). reflexivity.
  - split; [reflexivity|].
    apply (proj2 (@archive_checks_share_one_error runtime (manager (v 1 0 0)) "lib-a"
                    (Zip.Archive [Zip.mkZipInfo "a.bin" "payload" false]))
                 [Zip.mkZipInfo "a.bin" "payload" false] "a.bin");
      reflexivity.
Defined.

(** C6 as the claim has it fails: the upload that is no zip file and the
    archive with a bad CRC get the very same exception, so the two checks
    cannot be told apart from what the caller sees. *)
Lemma bad_crc_is_reported_as_not_a_zip :
  Zip.is_zipfile Zip.NotAZip = false
  /\ (exists zf name,
        vvlib_bad_crc = Zip.Archive zf /\ Zip.testzip zf = Some name)
  /\ @validate_vvlib runtime (manager (v 1 0 0)) "lib-a" Zip.NotAZip
     = @validate_vvlib runtime (manager (v 1 0 0)) "lib-a" vvlib_bad_crc
  /\ fst (@install_library runtime (manager (v 1 0 0)) "lib-a" Zip.NotAZip ∅)
     = fst (@install_library runtime (manager (v 1 0 0)) "lib-a" vvlib_bad_crc ∅)
  /\ fst (@install_library runtime (manager (v 1 0 0)) "lib-a" vvlib_bad_crc ∅)
     = Raise (HTTPException 422 "音声ライブラリ lib-a は不正なファイルです。").
Proof.
  split; [reflexivity|]. split.
  - eexists _, _. split; reflexivity.
  - repeat split; reflexivity.
Qed.

Lemma unconfigured_version_admits_zero_core_witness :
  LibraryManager_init None "brand" "engine" host_uuid catalog
  = Return (manager (v 0 0 0))
  /\ @validate_vvlib runtime (manager (v 0 0 0)) "lib-a" (vvlib "1.0.0" host_uuid)
     = Raise (HTTPException 422 (unsupported_detail "lib-a"))
  /\ (exists zf,
        @validate_vvlib runtime (manager (v 0 0 0)) "lib-a"
          (vvlib "0.0.0-alpha" host_uuid) = Return zf).
Proof.
  destruct (@unconfigured_version_admits_zero_core runtime
              "brand" "engine" host_uuid catalog) as [Hinit Hgate].
  split; [exact Hinit|]. split.
  - destruct (Hgate "lib-a"
                [Zip.mkZipInfo "vvlib_manifest.json"
                   (object_text (manifest "1.0.0" "1.0.0" host_uuid)) true;
                 Zip.mkZipInfo "model/voice.bin" "payload" true]
                (manifest_object "1.0.0" host_uuid) "1.0.0" (v 1 0 0))
      as [Hrefuse _].
    + reflexivity.
    + reflexivity.
    + split; [reflexivity|]. eexists. split; reflexivity.
    + reflexivity.
    + reflexivity.
    + apply Hrefuse. discriminate.
  - eexists.
    destruct (Hgate "lib-a"
                [Zip.mkZipInfo "vvlib_manifest.json"
                   (object_text
                      (manifest "1.0.0" "0.0.0-alpha" host_uuid)) true;
                 Zip.mkZipInfo "model/voice.bin" "payload" true]
                (manifest_object "0.0.0-alpha" host_uuid) "0.0.0-alpha"
                (Semver.mkVersion 0 0 0 (Some "alpha") None))
      as [_ Hpass].
    + reflexivity.
    + reflexivity.
    + split; [reflexivity|]. eexists. split; reflexivity.
    + reflexivity.
    + reflexivity.
    + apply Hpass; reflexivity.
Defined.

(** C2 as the claim has it fails: with no configured version, the
    manifest version 0.0.0-alpha gets to the version gate, is not 0.0.0,
    and is let through; the install returns. *)
Lemma prerelease_of_zero_is_installed :
  LibraryManager_init None "brand" "engine" host_uuid catalog
  = Return (manager (v 0 0 0))
  /\ sound_archive (vvlib "0.0.0-alpha" host_uuid)
  /\ @embeds_manifest runtime (vvlib "0.0.0-alpha" host_uuid)
       (manifest_object "0.0.0-alpha" host_uuid)
  /\ @passes_schema_and_version runtime
       (manifest_object "0.0.0-alpha" host_uuid)
  /\ manifest_object "0.0.0-alpha" host_uuid !! "manifest_version"
     = Some (JString "0.0.0-alpha")
  /\ "0.0.0-alpha" <> "0.0.0"
  /\ Semver.parse "0.0.0-alpha" <> Semver.parse "0.0.0"
  /\ fst (@install_library runtime (manager (v 0 0 0)) "lib-a"
            (vvlib "0.0.0-alpha" host_uuid) ∅)
     = Return ["lib-a"]
  /\ forall detail,
       fst (@install_library runtime (manager (v 0 0 0)) "lib-a"
              (vvlib "0.0.0-alpha" host_uuid) ∅)
       <> Raise (HTTPException 422 detail).
Proof.
  split; [reflexivity|].
  split; [eexists; split; reflexivity|].
  split; [eexists; split; reflexivity|].
  split; [split; [reflexivity|eexists; split; reflexivity]|].
  split; [reflexivity|].
  split; [discriminate|].
  split; [discriminate|].
  assert (fst (@install_library runtime (manager (v 0 0 0)) "lib-a"
                 (vvlib "0.0.0-alpha" host_uuid) ∅) = Return ["lib-a"])
    as Hrun by (vm_compute; reflexivity).
  split; [exact Hrun|]. intros detail. rewrite Hrun. discriminate.
Qed.

Lemma listing_raises_on_unreadable_metadata_witness :
  orphan_tree !! ["orphan"] = Some Dir
  /\ ~ @readable_metadata runtime orphan_tree "orphan"
  /\ @installed_libraries runtime orphan_tree
     = (Raise (OSError FileNotFoundError ["orphan"; INFO_FILE]),
        orphan_tree).
Proof.
  assert (orphan_tree !! ["orphan"] = Some Dir) as Hdir by reflexivity.
  assert (~ @readable_metadata runtime orphan_tree "orphan") as Hbad.
  { intros (raw & value & Hdoc & _). vm_compute in Hdoc. discriminate. }
  split; [exact Hdir|]. split; [exact Hbad|].
  destruct (@listing_raises_on_unreadable_metadata runtime orphan_tree
              "orphan" Hdir Hbad)
    as (e & culprit & Hraise & _ & Hinfo & _ & Honly).
  assert (culprit = "orphan") as ->.
  { apply Honly. intros other Hne Hother. exfalso.
    unfold orphan_tree in Hother.
    apply lookup_singleton_Some in Hother as [[= Heq] _]. congruence. }
  rewrite Hraise. vm_compute in Hinfo. injection Hinfo as <-.
  reflexivity.
Defined.

Lemma uninstall_never_forbidden_witness :
  (exists m info,
     fst (@installed_libraries runtime installed_tree) = Return m
     /\ m !! "lib-a" = Some info /\ uninstallable info = true)
  /\ fst (@uninstall_library runtime Fs.Completes "lib-a" installed_tree)
     <> Raise (HTTPException 403 (not_removable_detail "lib-a")).
Proof.
  destruct (@uninstall_never_forbidden runtime Fs.Completes "lib-a"
              installed_tree) as [Hflag Hnever].
  split; [|apply Hnever].
  destruct (fst (@installed_libraries runtime installed_tree))
    as [m|e] eqn:Hlist; [|vm_compute in Hlist; discriminate].
  destruct (m !! "lib-a") as [info|] eqn:Hin.
  - exists m, info. split; [done|]. split; [done|].
    now apply (Hflag m "lib-a").
  - exfalso. vm_compute in Hlist. injection Hlist as <-.
    vm_compute in Hin. discriminate.
Defined.

Lemma uninstall_outcomes_witness :
  @uninstall_library runtime Fs.Completes "lib-b" installed_tree
  = (Raise (HTTPException 404 (not_installed_detail "lib-b")),
     installed_tree)
  /\ (exists fs',
        @uninstall_library runtime Fs.Completes "lib-a" installed_tree
        = (Return tt, fs')
        /\ fs' !! ["lib-a"; "model"; "voice.bin"] = None
        /\ fs' !! ["lib-a"; INFO_FILE] = None
        /\ fs' !! ["lib-a"] = None
        /\ exists m',
             @installed_libraries runtime fs' = (Return m', fs')
             /\ m' !! "lib-a" = None).
Proof.
  destruct (@uninstall_outcomes runtime Fs.Completes "lib-b" installed_tree)
    as (_ & Habsent & _).
  destruct (@uninstall_outcomes runtime Fs.Completes "lib-a" installed_tree)
    as (_ & _ & _ & Hremoved).
  destruct (fst (@installed_libraries runtime installed_tree))
    as [m|e] eqn:Hlist; [|vm_compute in Hlist; discriminate].
  assert (m !! "lib-b" = None) as Hb.
  { vm_compute in Hlist. injection Hlist as <-. reflexivity. }
  assert (exists info, m !! "lib-a" = Some info) as [info Ha].
  { vm_compute in Hlist. injection Hlist as <-. eexists. reflexivity. }
  split; [now apply (Habsent m)|].
  destruct (Hremoved m info eq_refl Ha) as (fs' & Hrun & Hgone & _ & Hnext).
  exists fs'. split; [exact Hrun|].
  split; [apply Hgone; now exists ["model"; "voice.bin"]|].
  split; [apply Hgone; now exists [INFO_FILE]|].
  split; [apply Hgone; now exists []|].
  exists (delete "lib-a" m). split; [exact Hnext|apply lookup_delete_eq].
Defined.

Lemma install_library_twice_witness :
  @install_library runtime (manager (v 1 0 0)) "lib-a"
    (vvlib "1.0.0" host_uuid) ∅
  = (Return ["lib-a"], installed_tree)
  /\ @install_library runtime (manager (v 1 0 0)) "lib-a"
       (vvlib "1.0.0" host_uuid) installed_tree
     = (Return ["lib-a"], installed_tree).
Proof.
  assert (@install_library runtime (manager (v 1 0 0)) "lib-a"
            (vvlib "1.0.0" host_uuid) ∅
          = (Return ["lib-a"], installed_tree)) as Hfirst
    by (vm_compute; reflexivity).
  split; [exact Hfirst|].
  exact (proj1 (@install_library_twice runtime (manager (v 1 0 0)) "lib-a"
                  (vvlib "1.0.0" host_uuid) ∅ ["lib-a"] installed_tree
                  Hfirst)).
Defined.

End Examples.

(** ** What an install changes, whatever its outcome *)

Section InstallFrame.
Context {rt : PyRuntime}.

Lemma below_head (name : string) (q : path) :
  [name] `prefix_of` q <-> exists rest, q = name :: rest.
Proof.
  split.
  - intros [k ->]. eauto.
  - intros [rest ->]. now exists rest.
Qed.

Lemma mkdir_elsewhere p t r t' q :
  Fs.mkdir p t = (r, t') -> q <> p -> t' !! q = t !! q.
Proof.
  unfold Fs.mkdir. destruct (Fs.parent_fault t p); [now intros [= <- <-]|].
  destruct (Fs.exists_ t p); intros [= <- <-] Hq; [done|].
  now rewrite lookup_insert_ne.
Qed.

Lemma write_file_elsewhere p data t r t' q :
  Fs.write_file p data t = (r, t') -> q <> p -> t' !! q = t !! q.
Proof.
  unfold Fs.write_file.
  destruct (Fs.parent_fault t p); [now intros [= <- <-]|].
  destruct (Fs.isdir t p); intros [= <- <-] Hq; [done|].
  now rewrite lookup_insert_ne.
Qed.

Lemma write_file_covers p data t r t' :
  p <> [] -> Fs.write_file p data t = (r, t') -> covers t' t.
Proof.
  intros Hp. unfold Fs.write_file.
  destruct (Fs.parent_fault t p); [intros [= <- <-]; apply covers_refl|].
  destruct (Fs.isdir t p) eqn:Hdir; intros [= <- <-]; [apply covers_refl|].
  intros q nd Hq. destruct (decide (q = p)) as [->|Hne].
  - rewrite lookup_insert_eq. eexists. split; [done|].
    unfold Fs.isdir in Hdir. rewrite Hq in Hdir.
    destruct p; [done|]. now destruct nd.
  - rewrite lookup_insert_ne by done. eauto.
Qed.

Lemma mkdir_exist_ok_keeps p t r t' :
  Fs.mkdir_exist_ok p t = (r, t') ->
  (forall q, is_Some (t !! q) -> t' !! q = t !! q)
  /\ (forall q, q <> p -> t' !! q = t !! q)
  /\ (r = Return tt -> Fs.isdir t' p = true).
Proof.
  unfold Fs.mkdir_exist_ok.
  destruct (Fs.mkdir p t) as [r1 t1] eqn:Hm.
  pose proof (mkdir_keeps _ _ _ _ Hm) as [Hk Hd].
  pose proof (fun q => mkdir_elsewhere _ _ _ _ q Hm) as Hel.
  destruct r1 as [[]|e].
  - intros [= <- <-]. repeat split; try done. intros _.
    unfold Fs.isdir. rewrite (Hd eq_refl). now destruct p.
  - destruct e as [s d|k f| | | | |]; try (intros [= <- <-]; done).
    destruct (Fs.isdir t1 p) eqn:Hdir; intros [= <- <-]; done.
Qed.

Lemma makedirs_rev_raises rp : forall t e t',
  Fs.makedirs_rev rp t = (Raise e, t') -> exists k f, e = OSError k f.
Proof.
  induction rp as [|name rhead IH]; intros t e t'.
  - done.
  - cbn [Fs.makedirs_rev].
    assert (forall t1, Fs.mkdir (rev (name :: rhead)) t1 = (Raise e, t') ->
                       exists k f, e = OSError k f) as Hmk.
    { intros t1. unfold Fs.mkdir.
      destruct (Fs.parent_fault t1 _); [intros [= <- <-]; eauto|].
      destruct (Fs.exists_ t1 _); [intros [= <- <-]; eauto|done]. }
    destruct (Fs.exists_ t (rev rhead)); [apply Hmk|].
    destruct (Fs.makedirs_rev rhead t) as [[[]|e1] t1] eqn:Hhead;
      [apply Hmk|].
    destruct (IH _ _ _ Hhead) as (k & f & ->).
    destruct k; try (intros [= <- <-]; eauto); apply Hmk.
Qed.

(** [os.makedirs] of a path below an existing child of the root makes
    nodes below that child only. *)
Lemma makedirs_rev_frame (name : string) rp : forall t r t' rest,
  rev rp = name :: rest ->
  Fs.makedirs_rev rp t = (r, t') ->
  forall q, ~ [name] `prefix_of` q -> t' !! q = t !! q.
Proof.
  induction rp as [|x rhead IH]; intros t r t' rest Hrev.
  - done.
  - cbn [Fs.makedirs_rev]. intros Hrun q Hq.
    assert (q <> rev (x :: rhead)) as Hne.
    { intros ->. apply Hq. rewrite Hrev. apply below_head. eauto. }
    destruct (Fs.exists_ t (rev rhead)) eqn:Hex.
    + now apply (mkdir_elsewhere _ _ _ _ _ Hrun).
    + simpl in Hrev.
      destruct (rev rhead) as [|y head'] eqn:Hhead; [done|].
      simpl in Hrev. injection Hrev as -> _.
      destruct (Fs.makedirs_rev rhead t) as [rh th] eqn:Hrec.
      assert (th !! q = t !! q) as Hth
        by (eapply (IH t rh th); eauto).
      destruct rh as [[]|e].
      * rewrite <- Hth. now apply (mkdir_elsewhere _ _ _ _ _ Hrun).
      * destruct e as [s d|[] f| | | | |];
          try (injection Hrun as <- <-; done).
        rewrite <- Hth. now apply (mkdir_elsewhere _ _ _ _ _ Hrun).
Qed.

Lemma target_below (name : string) member :
  [name] `prefix_of` target_of member [name].
Proof. unfold target_of. now apply prefix_app_r. Qed.

(** Unpacking a member into a child of the root touches no path outside
    that child, whether it returns or raises. *)
Lemma extract_member_frame (name : string) member t r t' :
  Zip.extract_member member [name] t = (r, t') ->
  forall q, ~ [name] `prefix_of` q -> t' !! q = t !! q.
Proof.
  rewrite extract_member_eq. intros Hrun q Hq.
  assert (q <> target_of member [name]) as Hne.
  { intros ->. apply Hq, target_below. }
  assert (forall r1 t1, upper_made member [name] t = (r1, t1) ->
                        t1 !! q = t !! q) as Hup.
  { intros r1 t1. unfold upper_made.
    destruct (Fs.exists_ t _) eqn:Hex; [now intros [= <- <-]|].
    unfold Fs.makedirs. intros Hmk.
    destruct (Zip.arcname (Zip.filename member)) as [|a arc] eqn:Harc.
    - unfold target_of in Hex. now rewrite Harc in Hex.
    - eapply (makedirs_rev_frame name _ _ _ _ (removelast (a :: arc)));
        [|exact Hmk|exact Hq].
      rewrite rev_involutive. unfold target_of, Fs.dirname.
      rewrite Harc. reflexivity. }
  destruct (upper_made member [name] t) as [[[]|e] t1] eqn:Hupper.
  - rewrite <- (Hup _ _ eq_refl).
    destruct (Zip.is_dir member).
    + destruct (Fs.isdir t1 _); [now injection Hrun as <- <-|].
      now apply (mkdir_elsewhere _ _ _ _ _ Hrun).
    + now apply (write_file_elsewhere _ _ _ _ _ _ Hrun).
  - injection Hrun as <- <-. now apply (Hup _ _ eq_refl).
Qed.

(** Unpacking a member removes no node and changes the kind of none,
    whether it returns or raises; what it raises is an [OSError]. *)
Lemma extract_member_any member targetpath t r t' :
  targetpath <> [] ->
  Zip.extract_member member targetpath t = (r, t') ->
  covers t' t /\ (forall e, r = Raise e -> exists k f, e = OSError k f).
Proof.
  intros Hne. rewrite extract_member_eq.
  pose proof (target_of_nonempty member targetpath Hne) as Hq.
  assert (forall r1 t1, upper_made member targetpath t = (r1, t1) ->
            covers t1 t
            /\ (forall e, r1 = Raise e -> exists k f, e = OSError k f))
    as Hup.
  { intros r1 t1. unfold upper_made.
    destruct (Fs.exists_ t _).
    - intros [= <- <-]. split; [apply covers_refl|done].
    - intros Hmk. split.
      + apply keeps_covers. now apply (makedirs_keeps _ _ _ _ Hmk).
      + intros e ->. now apply makedirs_rev_raises in Hmk. }
  destruct (upper_made member targetpath t) as [[[]|e] t1] eqn:Hupper.
  - destruct (Hup _ _ eq_refl) as [Hc1 _].
    destruct (Zip.is_dir member).
    + destruct (Fs.isdir t1 _).
      * intros [= <- <-]. done.
      * intros Hmk. split.
        -- apply covers_trans with t1; [|done].
           apply keeps_covers. now apply (mkdir_keeps _ _ _ _ Hmk).
        -- intros e ->. unfold Fs.mkdir in Hmk.
           destruct (Fs.parent_fault t1 _); [injection Hmk as <- <-; eauto|].
           destruct (Fs.exists_ t1 _); [injection Hmk as <- <-; eauto|done].
    + intros Hw. split.
      * apply covers_trans with t1; [|done].
        now apply (write_file_covers _ _ _ _ _ Hq Hw).
      * intros e ->. unfold Fs.write_file in Hw.
        destruct (Fs.parent_fault t1 _); [injection Hw as <- <-; eauto|].
        destruct (Fs.isdir t1 _); [injection Hw as <- <-; eauto|done].
  - intros [= <- <-]. destruct (Hup _ _ eq_refl) as [Hc He].
    split; [done|]. intros e' [= <-]. now apply He.
Qed.

End InstallFrame.

(** ** Every outcome of [install_library] *)

Section InstallAnyOutcome.
Context {rt : PyRuntime}.

#[local] Arguments VvlibManifest_validate : simpl never.

(** A name of [namelist()] is the name of a member. *)
Lemma getinfo_of_namelist zf name :
  name ∈ Zip.namelist zf ->
  exists member,
    Zip.getinfo zf name = Return member /\ Zip.filename member = name.
Proof.
  unfold Zip.namelist, Zip.getinfo. intros Hin.
  apply list_elem_of_In, in_map_iff in Hin as (zi & Hname & Hzi).
  destruct (find _ (rev zf)) as [member|] eqn:Hfind.
  - exists member. split; [done|].
    apply find_some in Hfind as [_ Heq]. now apply String.eqb_eq.
  - exfalso. assert (In zi (rev zf)) as Hrev by now apply in_rev in Hzi.
    pose proof (find_none _ _ Hfind zi Hrev) as Hf. simpl in Hf.
    rewrite Hname, String.eqb_refl in Hf. done.
Qed.

(** The loop of [extractall] over names of the archive: no node is
    removed or changes kind, no path outside the target directory changes,
    and what is raised is an [OSError]. *)
Lemma extract_names_any zf (name : string) names : forall t r t',
  Forall (fun n => n ∈ Zip.namelist zf) names ->
  for_each names
    (fun n => let* member := pure_step (Zip.getinfo zf n) in
              Zip.extract_member member [name]) t
  = (r, t') ->
  covers t' t
  /\ (forall q, ~ [name] `prefix_of` q -> t' !! q = t !! q)
  /\ (forall e, r = Raise e -> exists k f, e = OSError k f).
Proof.
  induction names as [|n names IH]; intros t r t' Hnames.
  - simpl. unfold ret. intros [= <- <-]. split; [apply covers_refl|done].
  - apply Forall_cons in Hnames as [Hn Hnames].
    destruct (getinfo_of_namelist zf n Hn) as (member & Hinfo & _).
    cbn [for_each]. unfold bind at 1. unfold bind at 1, pure_step.
    rewrite Hinfo.
    destruct (Zip.extract_member member [name] t) as [r1 t1] eqn:Hstep.
    assert ([name] <> []) as Hne by done.
    destruct (extract_member_any member [name] t r1 t1 Hne Hstep)
      as [Hc1 He1].
    pose proof (extract_member_frame name member t r1 t1 Hstep) as Hf1.
    destruct r1 as [[]|e1].
    + intros Hrest. destruct (IH _ _ _ Hnames Hrest) as (Hc & Hf & He).
      split; [now apply covers_trans with t1|]. split; [|done].
      intros q Hq. now rewrite Hf, Hf1.
    + intros [= <- <-]. split; [done|]. split; [done|].
      intros e [= <-]. now apply He1.
Qed.

(** The validation raises a 422, or the [BadZipFile] of an archive whose
    directory cannot be read. *)
Lemma validate_vvlib_raises self library_id file e :
  validate_vvlib self library_id file = Raise e ->
  (file = Zip.BrokenDirectory /\ e = BadZipFile)
  \/ exists detail, e = HTTPException 422 detail.
Proof.
  destruct file as [| |zf].
  - rewrite validate_not_a_zip by done. intros [= <-]. eauto.
  - intros [= <-]. now left.
  - intros Hrun. right.
    destruct (Zip.testzip zf) as [bad|] eqn:Htz.
    { rewrite (validate_bad_crc _ _ _ bad) in Hrun by done.
      injection Hrun as <-. eauto. }
    destruct (load_manifest zf) as [value|e0] eqn:Hload.
    2:{ unfold validate_vvlib in Hrun. simpl in Hrun.
        rewrite Htz, Hload in Hrun.
        destruct e0; simpl in Hrun; injection Hrun as <-; eauto. }
    destruct (VvlibManifest_validate value) as [[]|e0] eqn:Hschema.
    2:{ unfold validate_vvlib in Hrun. simpl in Hrun.
        rewrite Htz, Hload in Hrun. simpl in Hrun. rewrite Hschema in Hrun.
        assert (e0 = ValidationError) as ->.
        { unfold VvlibManifest_validate in Hschema.
          repeat (match type of Hschema with
                  | context [match ?x with _ => _ end] => destruct x
                  end; try congruence). }
        simpl in Hrun. injection Hrun as <-. eauto. }
    pose proof Hschema as Hshape. unfold VvlibManifest_validate in Hshape.
    destruct value as [| | | | |m]; try done.
    destruct (m !! "version") as [[| | |version| |]|] eqn:Hver; try done.
    destruct (m !! "manifest_version") as [[| | |mv| |]|] eqn:Hmv; try done.
    destruct (m !! "engine_uuid") as [[| | |engine| |]|] eqn:Heng; try done.
    destruct (Semver.is_valid version) eqn:Hvalid.
    + rewrite (validate_at_gates self library_id zf m mv) in Hrun; try done.
      2:{ split; [done|]. eauto. }
      unfold version_and_engine_gates in Hrun.
      destruct (Semver.parse mv) as [v|]; [|injection Hrun as <-; eauto].
      destruct (Semver.gt v _); [injection Hrun as <-; eauto|].
      rewrite Heng in Hrun.
      destruct (ne_str _ _); [injection Hrun as <-; eauto|done].
    + unfold validate_vvlib in Hrun. simpl in Hrun.
      rewrite Htz, Hload in Hrun. simpl in Hrun. rewrite Hschema in Hrun.
      simpl in Hrun. rewrite Hver in Hrun. simpl in Hrun.
      rewrite Hvalid in Hrun. simpl in Hrun. injection Hrun as <-. eauto.
Qed.

(** The validation returns the archive it was given. *)
Lemma validate_vvlib_returns self library_id file zf :
  validate_vvlib self library_id file = Return zf -> file = Zip.Archive zf.
Proof.
  destruct file as [| |zf0]; try done. intros Hrun. f_equal.
  unfold validate_vvlib in Hrun. simpl in Hrun.
  destruct (Zip.testzip zf0); [done|].
  destruct (load_manifest zf0) as [value|e0];
    [|destruct e0; simpl in Hrun; done].
  simpl in Hrun.
  destruct (VvlibManifest_validate value) as [[]|e0];
    [|destruct e0; simpl in Hrun; done].
  simpl in Hrun.
  destruct (getitem value "version") as [j|e0]; [|done]. simpl in Hrun.
  destruct (as_str j) as [version|e0]; [|done]. simpl in Hrun.
  destruct (Semver.is_valid version); [|done]. simpl in Hrun.
  destruct (getitem value "manifest_version") as [j'|e0]; [|done].
  simpl in Hrun.
  destruct (as_str j') as [mv|e0]; [|done]. simpl in Hrun.
  destruct (Semver.parse mv) as [v|]; [|done].
  destruct (Semver.gt v _); [done|].
  destruct (getitem value "engine_uuid") as [j''|e0]; [|done].
  simpl in Hrun. destruct (ne_str j'' _); [done|].
  now injection Hrun as ->.
Qed.

(** All that can be said of any call of [install_library] at once. *)
Lemma install_library_any self library_id file fs :
  covers (snd (install_library self library_id file fs)) fs
  /\ (forall q, ~ [library_id] `prefix_of` q ->
                snd (install_library self library_id file fs) !! q = fs !! q)
  /\ (forall e,
        fst (install_library self library_id file fs) = Raise e ->
        (e = HTTPException 404 (unknown_library_detail library_id)
         /\ snd (install_library self library_id file fs) = fs)
        \/ (exists detail, e = HTTPException 422 detail)
        \/ e = BadZipFile
        \/ exists k f, e = OSError k f).
Proof.
  destruct (install_library self library_id file fs) as [r fs'] eqn:Hrun.
  simpl. unfold install_library in Hrun.
  destruct (find _ (downloadable_libraries self)) as [library|].
  2:{ injection Hrun as <- <-. split; [apply covers_refl|]. split; [done|].
      intros e [= <-]. left. done. }
  assert (forall q, ~ [library_id] `prefix_of` q ->
            q <> [library_id] /\ q <> [library_id; INFO_FILE]) as Hout.
  { intros q Hq. split; intros ->; apply Hq; apply below_head; eauto. }
  unfold bind at 1 in Hrun.
  destruct (Fs.mkdir_exist_ok [library_id] fs) as [r1 t1] eqn:Hmk.
  destruct (mkdir_exist_ok_keeps _ _ _ _ Hmk) as (Hk1 & Hel1 & _).
  assert (forall e, r1 = Raise e -> exists k f, e = OSError k f) as He1.
  { intros e ->. unfold Fs.mkdir_exist_ok, Fs.mkdir in Hmk.
    destruct (Fs.parent_fault fs _).
    - destruct (Fs.isdir fs _); [done|]. injection Hmk as <- _. eauto.
    - destruct (Fs.exists_ fs _); [|done].
      destruct (Fs.isdir fs _); [done|]. injection Hmk as <- _. eauto. }
  destruct r1 as [[]|e1].
  2:{ injection Hrun as <- <-. split; [now apply keeps_covers|].
      split; [intros q Hq; apply Hel1; now apply Hout|].
      intros e [= <-]. destruct (He1 e1 eq_refl) as (k & f & ->). eauto 8. }
  unfold bind at 1 in Hrun.
  destruct (Fs.write_file _ (json_dump (dict library)) t1) as [r2 t2] eqn:Hw.
  cbn [app] in Hw.
  assert (covers t2 fs) as Hc2.
  { apply covers_trans with t1; [|now apply keeps_covers].
    eapply write_file_covers; [|exact Hw]. done. }
  assert (forall q, ~ [library_id] `prefix_of` q -> t2 !! q = fs !! q) as Hf2.
  { intros q Hq. destruct (Hout q Hq) as [H1 H2].
    rewrite (write_file_elsewhere _ _ _ _ _ q Hw) by done. now apply Hel1. }
  destruct r2 as [[]|e2].
  2:{ injection Hrun as <- <-. split; [done|]. split; [done|].
      intros e [= <-]. unfold Fs.write_file in Hw.
      destruct (Fs.parent_fault t1 _); [injection Hw as <- _; eauto 8|].
      destruct (Fs.isdir t1 _); [injection Hw as <- _; eauto 8|done]. }
  unfold bind at 1, pure_step in Hrun.
  destruct (validate_vvlib self library_id file) as [zf|ev] eqn:Hval.
  2:{ injection Hrun as <- <-. split; [done|]. split; [done|].
      intros e [= <-].
      destruct (validate_vvlib_raises _ _ _ _ Hval) as [[_ ->]|[d ->]];
        eauto 8. }
  unfold bind at 1 in Hrun.
  destruct (Zip.extractall zf [library_id] t2) as [r3 t3] eqn:Hun.
  destruct (extract_names_any zf library_id (Zip.namelist zf) t2 r3 t3)
    as (Hc3 & Hf3 & He3); [now apply Forall_forall|exact Hun|].
  assert (covers t3 fs) as Hc by now apply covers_trans with t2.
  assert (forall q, ~ [library_id] `prefix_of` q -> t3 !! q = fs !! q) as Hf.
  { intros q Hq. now rewrite Hf3, Hf2. }
  destruct r3 as [[]|e3]; injection Hrun as <- <-;
    split; try done; split; try done.
  intros e [= <-]. destruct (He3 e3 eq_refl) as (k & f & ->). eauto 8.
Qed.

End InstallAnyOutcome.

(** ** What a returned install has put in the tree *)

Section InstallRoundTrip.
Context {rt : PyRuntime}.

Lemma for_each_app {A} (xs ys : list A) (body : A -> IO unit) t :
  for_each (xs ++ ys) body t
  = match for_each xs body t with
    | (Return _, t1) => for_each ys body t1
    | (Raise e, t1) => (Raise e, t1)
    end.
Proof.
  revert t. induction xs as [|x xs IH]; intros t; [done|].
  cbn [app for_each]. unfold bind.
  destruct (body x t) as [[[]|e] t1]; [apply IH|done].
Qed.

(** A file that no later turn writes keeps its bytes to the end. *)
Lemma extract_names_keeps_file zf targetpath names :
  targetpath <> [] ->
  forall t fs1 p c,
    for_each names
      (fun name => let* member := pure_step (Zip.getinfo zf name) in
                   Zip.extract_member member targetpath) t
    = (Return tt, fs1) ->
    t !! p = Some (File c) ->
    unwritten zf targetpath names p ->
    fs1 !! p = Some (File c).
Proof.
  intros Hne. induction names as [|name names IH]; intros t fs1 p c.
  - simpl. unfold ret. now intros [= <-].
  - cbn [for_each]. unfold bind at 1.
    destruct ((let* member := pure_step (Zip.getinfo zf name) in
               Zip.extract_member member targetpath) t)
      as [[[]|e] t'] eqn:Hturn; [|done].
    intros Hrest Hp [Hname Hnames]%Forall_cons.
    apply extractall_turn in Hturn as (member & Hinfo & Hrun).
    pose proof (target_of_nonempty member targetpath Hne) as Hq.
    destruct (extract_member_effect _ _ _ _ Hrun Hq) as [_ Heff].
    apply (IH t'); [done| |done].
    unfold written_by in Hname. rewrite Hinfo in Hname.
    destruct (Zip.is_dir member).
    + destruct Heff as [_ Hkeep]. rewrite Hkeep; eauto.
    + destruct Heff as (_ & _ & _ & Hkeep). rewrite Hkeep; eauto.
      intros ->. now apply (Hname (Zip.content member)).
Qed.

(** The bytes at a path are those of the last turn that writes there. *)
Lemma extract_names_last_writer zf targetpath before name after :
  targetpath <> [] ->
  forall t fs1 p c,
    for_each (before ++ name :: after)
      (fun name => let* member := pure_step (Zip.getinfo zf name) in
                   Zip.extract_member member targetpath) t
    = (Return tt, fs1) ->
    written_by zf targetpath name = Some (p, c) ->
    unwritten zf targetpath after p ->
    fs1 !! p = Some (File c).
Proof.
  intros Hne t fs1 p c. rewrite for_each_app.
  destruct (for_each before _ t) as [[[]|e] t1]; [|done].
  cbn [for_each]. unfold bind at 1.
  destruct ((let* member := pure_step (Zip.getinfo zf name) in
             Zip.extract_member member targetpath) t1)
    as [[[]|e] t'] eqn:Hturn; [|done].
  intros Hrest Hwrite Hafter.
  apply extractall_turn in Hturn as (member & Hinfo & Hrun).
  pose proof (target_of_nonempty member targetpath Hne) as Hq.
  destruct (extract_member_effect _ _ _ _ Hrun Hq) as [_ Heff].
  unfold written_by in Hwrite. rewrite Hinfo in Hwrite.
  destruct (Zip.is_dir member); [done|]. injection Hwrite as <- <-.
  destruct Heff as (_ & Hfile & _).
  now apply (extract_names_keeps_file zf targetpath after Hne t').
Qed.

(** The directory of a directory member is there at the end. *)
Lemma extract_names_directories zf targetpath names :
  targetpath <> [] ->
  forall t fs1 name member,
    for_each names
      (fun name => let* member := pure_step (Zip.getinfo zf name) in
                   Zip.extract_member member targetpath) t
    = (Return tt, fs1) ->
    name ∈ names ->
    Zip.getinfo zf name = Return member ->
    Zip.is_dir member = true ->
    Fs.isdir fs1 (target_of member targetpath) = true.
Proof.
  intros Hne. induction names as [|n names IH]; intros t fs1 name member.
  - intros _ Hin. now apply elem_of_nil in Hin.
  - cbn [for_each]. unfold bind at 1.
    destruct ((let* member := pure_step (Zip.getinfo zf n) in
               Zip.extract_member member targetpath) t)
      as [[[]|e] t'] eqn:Hturn; [|done].
    intros Hrest [->|Hin]%elem_of_cons Hinfo Hdir.
    + apply extractall_turn in Hturn as (member' & Hinfo' & Hrun).
      rewrite Hinfo in Hinfo'. injection Hinfo' as <-.
      pose proof (target_of_nonempty member targetpath Hne) as Hq.
      destruct (extract_member_effect _ _ _ _ Hrun Hq) as [_ Heff].
      rewrite Hdir in Heff. destruct Heff as [Hisdir _].
      apply covers_isdir with t'; [|done].
      now apply (extract_names_covers zf targetpath names Hne).
    + now apply (IH t' fs1 name member).
Qed.

(** X3. After an install that returns, every member of the archive is in
    the package directory: a file member as a file with its bytes, unless a
    later member is written to the same path (then the last one wins), a
    directory member as a directory. *)
Theorem install_unpacks_archive self library_id file fs library_dir fs1 :
  install_library self library_id file fs = (Return library_dir, fs1) ->
  exists zf,
    file = Zip.Archive zf
    /\ (forall before name after p c,
          Zip.namelist zf = before ++ name :: after ->
          written_by zf [library_id] name = Some (p, c) ->
          unwritten zf [library_id] after p ->
          fs1 !! p = Some (File c))
    /\ (forall name member,
          name ∈ Zip.namelist zf ->
          Zip.getinfo zf name = Return member ->
          Zip.is_dir member = true ->
          Fs.isdir fs1 (target_of member [library_id]) = true).
Proof.
  intros (library & zf & Hfind & Hinst & Hval & Hunpack & ->)
    %install_library_return.
  exists zf. split; [now apply validate_vvlib_returns in Hval|].
  assert ([library_id] <> []) as Hne by done.
  unfold Zip.extractall in Hunpack. split.
  - intros before name after p c Hsplit Hw Hafter.
    rewrite Hsplit in Hunpack.
    exact (extract_names_last_writer zf [library_id] before name after
             Hne _ fs1 p c Hunpack Hw Hafter).
  - intros name member Hin Hinfo Hdir.
    exact (extract_names_directories zf [library_id] _ Hne _ fs1 name member
             Hunpack Hin Hinfo Hdir).
Qed.

(** X4. After an install that returns, the metadata document holds the
    dump of the descriptor when no member of the archive is written to its
    path; when a member is, the document holds the bytes of the last such
    member instead. *)
Theorem install_metadata_document self library_id file fs library_dir fs1 :
  install_library self library_id file fs = (Return library_dir, fs1) ->
  exists library zf,
    lookup_library self library_id = Some library
    /\ file = Zip.Archive zf
    /\ (unwritten zf [library_id] (Zip.namelist zf) [library_id; INFO_FILE] ->
        fs1 !! [library_id; INFO_FILE]
        = Some (File (json_dump (dict library))))
    /\ (forall before name after c,
          Zip.namelist zf = before ++ name :: after ->
          written_by zf [library_id] name
          = Some ([library_id; INFO_FILE], c) ->
          unwritten zf [library_id] after [library_id; INFO_FILE] ->
          fs1 !! [library_id; INFO_FILE] = Some (File c)).
Proof.
  intros (library & zf & Hfind & Hinst & Hval & Hunpack & ->)
    %install_library_return.
  exists library, zf. split; [done|].
  split; [now apply validate_vvlib_returns in Hval|].
  assert ([library_id] <> []) as Hne by done.
  unfold Zip.extractall in Hunpack. split.
  - intros Hfree.
    apply (extract_names_keeps_file zf [library_id] _ Hne _ fs1 _ _ Hunpack);
      [apply with_metadata_document|done].
  - intros before name after c Hsplit Hw Hafter.
    rewrite Hsplit in Hunpack.
    exact (extract_names_last_writer zf [library_id] before name after
             Hne _ fs1 _ c Hunpack Hw Hafter).
Qed.

(** X5. [mkdir(exist_ok=True)] does not get past a file that has the name
    of the library: the install raises the [FileExistsError] and leaves the
    tree as it is; and when the place of the metadata document is taken by
    a directory, the install raises [IsADirectoryError] after it has made
    the package directory. *)
Theorem install_blocked self library_id file fs library :
  lookup_library self library_id = Some library ->
  (forall c,
     fs !! [library_id] = Some (File c) ->
     install_library self library_id file fs
     = (Raise (OSError FileExistsError [library_id]), fs))
  /\ ((forall c, fs !! [library_id] <> Some (File c)) ->
      fs !! [library_id; INFO_FILE] = Some Dir ->
      install_library self library_id file fs
      = (Raise (OSError IsADirectoryError [library_id; INFO_FILE]),
         <[[library_id] := Dir]> fs)).
Proof.
  intros Hfind. unfold lookup_library in Hfind. split.
  - intros c Hfile. unfold install_library. rewrite Hfind.
    unfold bind at 1. now rewrite (mkdir_exist_ok_blocked _ _ c).
  - intros Hnofile Hdoc. unfold install_library. rewrite Hfind.
    unfold bind at 1. rewrite mkdir_exist_ok_root_child by done.
    unfold bind at 1. unfold Fs.write_file, Fs.parent_fault, Fs.isdir.
    simpl. rewrite lookup_insert_eq, lookup_insert_ne by done.
    now rewrite Hdoc.
Qed.

End InstallRoundTrip.

(** ** Install, listing and uninstall together *)

Section Lifecycle.
Context {rt : PyRuntime}.

(** X1. Whatever it is given and however it ends, [install_library]
    leaves every path that is not the package directory or below it as it
    was: member names with [..], [.] or a leading [/] do not get out. *)
Theorem install_keeps_other_paths self library_id file fs q :
  ~ [library_id] `prefix_of` q ->
  snd (install_library self library_id file fs) !! q = fs !! q.
Proof.
  intros Hq.
  destruct (install_library_any self library_id file fs) as (_ & Hf & _).
  now apply Hf.
Qed.



(** The listing of a tree that differs from [fs] in the package directory
    of [library_id] only. *)
Lemma listing_elsewhere fs fs' library_id m :
  fst (installed_libraries fs) = Return m ->
  (forall q, ~ [library_id] `prefix_of` q -> fs' !! q = fs !! q) ->
  forall name, name <> library_id ->
    fs' !! [name] = fs !! [name]
    /\ library_info_at fs' name = library_info_at fs name.
Proof.
  intros Hlist Hframe name Hne.
  assert (forall rest, fs' !! (name :: rest) = fs !! (name :: rest)) as Hsame.
  { intros rest. apply Hframe. intros [k Hk]. simpl in Hk. congruence. }
  split; [apply Hsame|]. apply library_info_at_ext; apply Hsame.
Qed.

Lemma listing_with_entry fs fs' library_id m entry :
  fst (installed_libraries fs) = Return m ->
  (forall q, ~ [library_id] `prefix_of` q -> fs' !! q = fs !! q) ->
  fs' !! [library_id] = Some Dir ->
  library_info_at fs' library_id = Return entry ->
  installed_libraries fs' = (Return (<[library_id := entry]> m), fs').
Proof.
  intros Hlist Hframe Hdir Hentry.
  pose proof (listing_elsewhere fs fs' library_id m Hlist Hframe) as Hsame.
  pose proof (installed_libraries_return fs m Hlist) as Hm.
  destruct (installed_libraries_total fs') as [m' Hlist'].
  { intros name Hd. destruct (decide (name = library_id)) as [->|Hne];
      [eauto|].
    destruct (Hsame name Hne) as [H1 H2]. rewrite H2. rewrite H1 in Hd.
    now apply (installed_libraries_all_good fs m). }
  rewrite Hlist'. f_equal. f_equal. apply map_eq. intros name.
  pose proof (installed_libraries_return fs' m') as Hm'.
  rewrite Hlist' in Hm'. specialize (Hm' eq_refl).
  apply option_eq. intros i.
  destruct (decide (name = library_id)) as [->|Hne].
  - rewrite lookup_insert_eq, Hm'. split.
    + intros [_ Hi]. congruence.
    + intros [= <-]. done.
  - rewrite lookup_insert_ne by done.
    destruct (Hsame name Hne) as [H1 H2]. now rewrite Hm', Hm, H1, H2.
Qed.

Lemma listing_without_entry fs fs' library_id m :
  fst (installed_libraries fs) = Return m ->
  (forall q, ~ [library_id] `prefix_of` q -> fs' !! q = fs !! q) ->
  fs' !! [library_id] = None ->
  installed_libraries fs' = (Return (delete library_id m), fs').
Proof.
  intros Hlist Hframe Hgone.
  pose proof (listing_elsewhere fs fs' library_id m Hlist Hframe) as Hsame.
  pose proof (installed_libraries_return fs m Hlist) as Hm.
  destruct (installed_libraries_total fs') as [m' Hlist'].
  { intros name Hd. destruct (decide (name = library_id)) as [->|Hne];
      [congruence|].
    destruct (Hsame name Hne) as [H1 H2]. rewrite H2. rewrite H1 in Hd.
    now apply (installed_libraries_all_good fs m). }
  rewrite Hlist'. f_equal. f_equal. apply map_eq. intros name.
  pose proof (installed_libraries_return fs' m') as Hm'.
  rewrite Hlist' in Hm'. specialize (Hm' eq_refl).
  apply option_eq. intros i.
  destruct (decide (name = library_id)) as [->|Hne].
  - rewrite lookup_delete_eq, Hm', Hgone. split; [now intros [? _]|done].
  - rewrite lookup_delete_ne by done.
    destruct (Hsame name Hne) as [H1 H2]. now rewrite Hm', Hm, H1, H2.
Qed.

(** X7. When the listing returned [m] before an install that returns,
    the listing after it is [m] with the entry read from the new metadata
    document under [library_id], the other entries unchanged; it raises
    when that document does not give an entry.  With a codec that reads
    back what it dumped and an archive that does not write to the
    document, the entry has the fields of the descriptor and
    [uninstallable] set. *)
Theorem install_then_listing self library_id file fs library_dir fs1 m :
  fst (installed_libraries fs) = Return m ->
  install_library self library_id file fs = (Return library_dir, fs1) ->
  (forall entry,
     library_info_at fs1 library_id = Return entry ->
     installed_libraries fs1 = (Return (<[library_id := entry]> m), fs1))
  /\ (forall e,
        library_info_at fs1 library_id = Raise e ->
        exists e', installed_libraries fs1 = (Raise e', fs1))
  /\ (forall library zf kwargs info,
        lookup_library self library_id = Some library ->
        file = Zip.Archive zf ->
        unwritten zf [library_id] (Zip.namelist zf)
                  [library_id; INFO_FILE] ->
        json_load (json_dump (dict library)) = Return (JObject kwargs) ->
        kwargs !! "uninstallable" = None ->
        BaseLibraryInfo_fields kwargs = Some info ->
        installed_libraries fs1
        = (Return (<[library_id := mkInstalled info true]> m), fs1)).
Proof.
  intros Hlist Hrun.
  assert (forall q, ~ [library_id] `prefix_of` q -> fs1 !! q = fs !! q)
    as Hframe.
  { intros q Hq.
    pose proof (install_library_any self library_id file fs) as (_ & Hf & _).
    rewrite Hrun in Hf. now apply Hf. }
  assert (fs1 !! [library_id] = Some Dir) as Hdir.
  { pose proof Hrun as (library & zf & _ & _ & _ & Hunpack & _)
      %install_library_return.
    pose proof (extract_names_covers zf [library_id] (Zip.namelist zf)
                  ltac:(done) _ _ Hunpack) as Hmono.
    destruct (Hmono _ _ (with_metadata_directory fs library_id library))
      as (nd & Hnd & Hk).
    now destruct nd. }
  assert (forall entry,
            library_info_at fs1 library_id = Return entry ->
            installed_libraries fs1
            = (Return (<[library_id := entry]> m), fs1)) as Hentry.
  { intros entry. now apply (listing_with_entry fs). }
  split; [exact Hentry|]. split.
  - intros e Hbad. rewrite installed_libraries_eq.
    destruct (fst (installed_libraries fs1)) as [m1|e'] eqn:Hlist1; [|eauto].
    destruct (installed_libraries_all_good fs1 m1 library_id Hlist1 Hdir)
      as [info Hgood].
    congruence.
  - intros library zf kwargs info Hfind -> Hfree Hback Hflag Hfields.
    apply Hentry.
    pose proof Hrun as (library' & zf' & Hfind' & _ & Hval & Hunpack & _)
      %install_library_return.
    rewrite Hfind in Hfind'. injection Hfind' as <-.
    apply validate_vvlib_returns in Hval. injection Hval as <-.
    assert (fs1 !! [library_id; INFO_FILE]
            = Some (File (json_dump (dict library)))) as Hdoc.
    { apply (extract_names_keeps_file zf [library_id] (Zip.namelist zf)
               ltac:(done) _ fs1 _ _ Hunpack);
        [apply with_metadata_document|done]. }
    rewrite library_info_at_unfold, Hdir, Hdoc, Hback. simpl.
    now rewrite Hflag, Hfields.
Qed.

Lemma uninstall_completes library_id fs m info :
  fst (installed_libraries fs) = Return m ->
  m !! library_id = Some info ->
  uninstall_library Fs.Completes library_id fs
  = (Return tt,
     filter (fun '(q, _) => Fs.below [library_id] q = false) fs).
Proof.
  intros Hlist Hin.
  destruct (installed_libraries_return fs m Hlist library_id info)
    as [[Hdir Hinfo] _]; [done|].
  rewrite uninstall_library_eq, Hlist. unfold uninstall_listed.
  rewrite Hin, (library_info_at_uninstallable _ _ _ Hinfo). simpl.
  unfold Fs.rmtree. now rewrite Hdir.
Qed.

(** X8. Installing into a root that has nothing at or below the package
    directory and then uninstalling, with a deletion that goes through,
    gives back the tree from before the install, provided the listing
    works on the installed tree. *)
Theorem install_then_uninstall self library_id file fs library_dir fs1 m1 :
  (forall p, [library_id] `prefix_of` p -> fs !! p = None) ->
  install_library self library_id file fs = (Return library_dir, fs1) ->
  fst (installed_libraries fs1) = Return m1 ->
  uninstall_library Fs.Completes library_id fs1 = (Return tt, fs).
Proof.
  intros Hfresh Hrun Hlist1.
  assert (fs1 !! [library_id] = Some Dir) as Hdir.
  { pose proof Hrun as (library & zf & _ & _ & _ & Hunpack & _)
      %install_library_return.
    pose proof (extract_names_covers zf [library_id] (Zip.namelist zf)
                  ltac:(done) _ _ Hunpack) as Hmono.
    destruct (Hmono _ _ (with_metadata_directory fs library_id library))
      as (nd & Hnd & Hk).
    now destruct nd. }
  destruct (installed_libraries_all_good fs1 m1 library_id Hlist1 Hdir)
    as [info Hinfo].
  assert (m1 !! library_id = Some info) as Hin
    by now apply (installed_libraries_return fs1 m1 Hlist1).
  rewrite (uninstall_completes library_id fs1 m1 info) by done.
  f_equal. apply map_eq. intros p. rewrite removed_lookup.
  destruct (Fs.below [library_id] p) eqn:Hb.
  - apply below_spec in Hb. now rewrite Hfresh.
  - pose proof (install_library_any self library_id file fs) as (_ & Hf & _).
    rewrite Hrun in Hf. apply Hf. intros Hp%below_spec. congruence.
Qed.

(** X9. [uninstall_library] only ever removes: every node of the tree it
    leaves was there before with the same content, and no path outside the
    package directory changes; when it raises the 404 or the error of the
    listing the tree is as before; a deletion that stops halfway is
    reported as a 500. *)
Theorem uninstall_changes how library_id fs :
  (forall p nd,
     snd (uninstall_library how library_id fs) !! p = Some nd ->
     fs !! p = Some nd)
  /\ (forall p, ~ [library_id] `prefix_of` p ->
                snd (uninstall_library how library_id fs) !! p = fs !! p)
  /\ (snd (uninstall_library how library_id fs) <> fs ->
      fst (uninstall_library how library_id fs) = Return tt
      \/ fst (uninstall_library how library_id fs)
         = Raise (HTTPException 500 (deletion_failed_detail library_id)))
  /\ (forall kept m info,
        how = Fs.FailsLeaving kept ->
        fst (installed_libraries fs) = Return m ->
        m !! library_id = Some info ->
        fst (uninstall_library how library_id fs)
        = Raise (HTTPException 500 (deletion_failed_detail library_id))).
Proof.
  rewrite uninstall_library_eq.
  destruct (fst (installed_libraries fs)) as [m|e] eqn:Hlist.
  2:{ simpl. repeat split; done. }
  unfold uninstall_listed.
  destruct (m !! library_id) as [info|] eqn:Hin.
  2:{ simpl. unfold raise. simpl. repeat split; try done.
      intros kept m' info' _ [= <-] Hin'. congruence. }
  destruct (installed_libraries_return fs m Hlist library_id info)
    as [[Hdir Hinfo] _]; [done|].
  rewrite (library_info_at_uninstallable _ _ _ Hinfo). simpl.
  unfold Fs.rmtree. rewrite Hdir.
  destruct how as [|kept]; simpl.
  - split; [|split; [|split]].
    + intros p nd Hp. now apply map_lookup_filter_Some in Hp as [? _].
    + intros p Hp. rewrite removed_lookup.
      destruct (Fs.below [library_id] p) eqn:Hb; [|done].
      now apply below_spec in Hb.
    + intros _. now left.
    + intros kept m' info' [=].
  - split; [|split; [|split]].
    + intros p nd Hp. now apply map_lookup_filter_Some in Hp as [? _].
    + intros p Hp.
      destruct (fs !! p) as [nd|] eqn:Hfs.
      * apply map_lookup_filter_Some. split; [done|]. simpl. left.
        destruct (Fs.below [library_id] p) eqn:Hb; [|done].
        now apply below_spec in Hb.
      * apply map_lookup_filter_None. now left.
    + intros _. now right.
    + intros kept' m' info' _ _ _. done.
Qed.

(** X10. A second uninstall of a library that has just been removed
    raises the 404. *)
Theorem uninstall_twice how library_id fs m info :
  fst (installed_libraries fs) = Return m ->
  m !! library_id = Some info ->
  exists fs',
    uninstall_library Fs.Completes library_id fs = (Return tt, fs')
    /\ uninstall_library how library_id fs'
       = (Raise (HTTPException 404 (not_installed_detail library_id)), fs').
Proof.
  intros Hlist Hin.
  rewrite (uninstall_completes library_id fs m info) by done.
  eexists. split; [done|].
  set (fs' := filter _ fs).
  assert (installed_libraries fs' = (Return (delete library_id m), fs'))
    as Hlist'.
  { apply (listing_without_entry fs); [done| |].
    - intros q Hq. unfold fs'. rewrite removed_lookup.
      destruct (Fs.below [library_id] q) eqn:Hb; [|done].
      now apply below_spec in Hb.
    - unfold fs'. rewrite removed_lookup.
      assert (Fs.below [library_id] [library_id] = true) as ->; [|done].
      now apply below_spec. }
  rewrite uninstall_library_eq, Hlist'. simpl.
  unfold uninstall_listed. now rewrite lookup_delete_eq.
Qed.

(** X11. The keys of a returned listing are exactly the entries of the
    root that are directories: files in the root are passed over, and a
    root without a subdirectory gives the empty mapping. *)
Theorem listing_keys fs :
  (forall m, fst (installed_libraries fs) = Return m ->
             forall name, is_Some (m !! name) <-> fs !! [name] = Some Dir)
  /\ ((forall name, fs !! [name] <> Some Dir) ->
      installed_libraries fs = (Return ∅, fs)).
Proof.
  split.
  - intros m Hlist name.
    pose proof (installed_libraries_return fs m Hlist name) as Hm. split.
    + intros [info Hin]. now apply Hm in Hin as [? _].
    + intros Hdir.
      destruct (installed_libraries_all_good fs m name Hlist Hdir)
        as [info Hinfo].
      exists info. now apply Hm.
  - intros Hnone.
    destruct (installed_libraries_total fs) as [m Hlist].
    { intros name Hdir. now destruct (Hnone name). }
    rewrite Hlist. f_equal. f_equal. apply map_eq. intros name.
    rewrite lookup_empty. apply eq_None_not_Some. intros [info Hin].
    pose proof (installed_libraries_return fs m) as Hm.
    rewrite Hlist in Hm. apply (Hm eq_refl) in Hin as [Hdir _].
    now destruct (Hnone name).
Qed.

End Lifecycle.

(** ** The version gate and the manifest entry *)

Section Gates.
Context {rt : PyRuntime}.

Lemma string_compare_refl s : Py.cmp_str s s = Eq.
Proof.
  unfold Py.cmp_str. pose proof (String.compare_antisym s s) as H.
  now destruct (String.compare s s).
Qed.

Lemma cmp_zip_refl tags : Semver.cmp_zip tags tags = Eq.
Proof.
  induction tags as [|x tags IH]; [done|]. simpl.
  assert (Semver.cmp_prerelease_tag x x = Eq) as ->; [|done].
  destruct x; simpl; [apply N.compare_refl|apply string_compare_refl].
Qed.

Lemma nat_cmp_refl p : Semver.nat_cmp p p = Eq.
Proof.
  unfold Semver.nat_cmp. rewrite cmp_zip_refl. apply N.compare_refl.
Qed.

Lemma core_below_cmp v w : core_above w v -> Semver.cmp_core v w = Lt.
Proof.
  unfold core_above, Semver.cmp_core, Py.cmp_N.
  intros [H | [[E H] | (E1 & E2 & H)]].
  - apply N.compare_lt_iff in H. now rewrite H.
  - rewrite E, N.compare_refl. apply N.compare_lt_iff in H. now rewrite H.
  - rewrite E1, E2, !N.compare_refl. now apply N.compare_lt_iff.
Qed.

Lemma same_core_cmp v w : same_core v w -> Semver.cmp_core v w = Eq.
Proof.
  intros (E1 & E2 & E3). unfold Semver.cmp_core, Py.cmp_N.
  now rewrite E1, E2, E3, !N.compare_refl.
Qed.

(** [v > w] is false when the core of [v] is below that of [w], and when
    the cores and the prereleases are the same. *)
Lemma gt_false v w :
  core_above w v
  \/ (same_core v w /\ Semver.prerelease v = Semver.prerelease w) ->
  Semver.gt v w = false.
Proof.
  unfold Semver.gt, Semver.compare. intros [Hbelow|[Hsame Hpre]].
  - now rewrite (core_below_cmp _ _ Hbelow).
  - now rewrite (same_core_cmp _ _ Hsame), Hpre, nat_cmp_refl.
Qed.

(** X12. The version gate lets a manifest through when major, minor,
    patch of its [manifest_version] are below the supported ones, and
    when they and the prerelease are the same as the supported ones,
    whatever the build suffix is; with the host's engine uuid the
    validation then returns the archive. *)
Theorem version_gate_admits self library_id zf m manifest_version v :
  Zip.testzip zf = None ->
  load_manifest zf = Return (JObject m) ->
  passes_schema_and_version m ->
  m !! "manifest_version" = Some (JString manifest_version) ->
  Semver.parse manifest_version = Some v ->
  core_above (supported_vvlib_version self) v
  \/ (same_core v (supported_vvlib_version self)
      /\ Semver.prerelease v
         = Semver.prerelease (supported_vvlib_version self)) ->
  m !! "engine_uuid" = Some (JString (engine_uuid self)) ->
  validate_vvlib self library_id (Zip.Archive zf) = Return zf.
Proof.
  intros Htz Hload Hschema Hmv Hparse Hle Hengine.
  rewrite (validate_at_gates _ _ _ m manifest_version) by done.
  unfold version_and_engine_gates.
  rewrite Hparse, (gt_false _ _ Hle), Hengine. simpl.
  now rewrite String.eqb_refl.
Qed.

Lemma testzip_none zf member :
  Zip.testzip zf = None -> In member zf -> Zip.crc_ok member = true.
Proof.
  unfold Zip.testzip. intros Htz Hin.
  destruct (find _ zf) eqn:Hfind; [done|].
  pose proof (find_none _ _ Hfind member Hin) as H. simpl in H.
  now destruct (Zip.crc_ok member).
Qed.

Lemma json_load_raises raw e : json_load raw = Raise e -> e = ValueError.
Proof.
  unfold json_load. destruct (utf8_decode raw) as [text|]; [|congruence].
  destruct (json_loads text); congruence.
Qed.

(** X13. An archive that passes the CRC self-test gets one 422 when it has
    no member named [vvlib_manifest.json] and another one when the last
    member of that name does not decode as utf-8 json text. *)
Theorem manifest_entry_errors self library_id zf :
  Zip.testzip zf = None ->
  (Forall (fun member => Zip.filename member <> "vvlib_manifest.json") zf ->
   validate_vvlib self library_id (Zip.Archive zf)
   = Raise (HTTPException 422 (manifest_missing_detail library_id)))
  /\ (forall member e,
        Zip.getinfo zf "vvlib_manifest.json" = Return member ->
        json_load (Zip.content member) = Raise e ->
        validate_vvlib self library_id (Zip.Archive zf)
        = Raise (HTTPException 422
                   (manifest_undecodable_detail library_id))).
Proof.
  intros Htz. split.
  - intros Hnone.
    assert (Zip.getinfo zf "vvlib_manifest.json"
            = Raise (KeyError "vvlib_manifest.json")) as Hinfo.
    { unfold Zip.getinfo.
      destruct (find _ (rev zf)) as [member|] eqn:Hfind; [|done].
      apply find_some in Hfind as [Hin Heq]. apply in_rev in Hin.
      apply String.eqb_eq in Heq. rewrite Forall_forall in Hnone.
      destruct (Hnone member); [now apply list_elem_of_In|done]. }
    assert (load_manifest zf = Raise (KeyError "vvlib_manifest.json"))
      as Hload by (unfold load_manifest, Zip.read; now rewrite Hinfo).
    unfold validate_vvlib. simpl. now rewrite Htz, Hload.
  - intros member e Hinfo Hbad.
    assert (Zip.crc_ok member = true) as Hcrc.
    { apply (testzip_none zf); [done|].
      unfold Zip.getinfo in Hinfo.
      destruct (find _ (rev zf)) as [member'|] eqn:Hfind; [|done].
      injection Hinfo as ->.
      apply find_some in Hfind as [Hin _]. now apply in_rev in Hin. }
    apply json_load_raises in Hbad as Hkind. subst e.
    assert (load_manifest zf = Raise ValueError) as Hload.
    { unfold load_manifest, Zip.read. rewrite Hinfo. simpl.
      now rewrite Hcrc. }
    unfold validate_vvlib. simpl. now rewrite Htz, Hload.
Qed.

End Gates.

(** ** After a rejected upload *)

Section RejectedUpload.
Context {rt : PyRuntime}.

Lemma with_metadata_again fs library_id library :
  with_metadata (with_metadata fs library_id library) library_id library
  = with_metadata fs library_id library.
Proof.
  apply map_eq. intros p.
  destruct (decide (p = [library_id; INFO_FILE])) as [->|Hp2].
  { now rewrite !with_metadata_document. }
  destruct (decide (p = [library_id])) as [->|Hp1].
  { now rewrite !with_metadata_directory. }
  now rewrite !with_metadata_elsewhere.
Qed.

Lemma with_metadata_installable fs library_id library :
  installable_at (with_metadata fs library_id library) library_id = true.
Proof.
  unfold installable_at.
  now rewrite with_metadata_directory, with_metadata_document.
Qed.

(** X14. An install that the validation stops leaves the library in the
    listing: when the listing returned [m] before the call and the codec
    reads back what it dumped, the listing after the refused upload is [m]
    with an entry for [library_id], although nothing has been unpacked. *)
Theorem rejected_install_is_listed
    self library_id file fs library m e kwargs info :
  fst (installed_libraries fs) = Return m ->
  lookup_library self library_id = Some library ->
  installable_at fs library_id = true ->
  validate_vvlib self library_id file = Raise e ->
  json_load (json_dump (dict library)) = Return (JObject kwargs) ->
  kwargs !! "uninstallable" = None ->
  BaseLibraryInfo_fields kwargs = Some info ->
  fst (install_library self library_id file fs) = Raise e
  /\ installed_libraries (snd (install_library self library_id file fs))
     = (Return (<[library_id := mkInstalled info true]> m),
        snd (install_library self library_id file fs)).
Proof.
  intros Hlist Hfind Hinst Hval Hback Hflag Hfields.
  rewrite (install_library_steps _ _ _ _ library), Hval by done. simpl.
  split; [done|].
  apply (listing_with_entry fs); [done| | |].
  - intros q Hq. apply with_metadata_elsewhere;
      intros ->; apply Hq; apply below_head; eauto.
  - apply with_metadata_directory.
  - rewrite library_info_at_unfold, with_metadata_directory,
      with_metadata_document, Hback. simpl.
    now rewrite Hflag, Hfields.
Qed.

(** X15. A refused upload does not stand in the way of the next one: an
    install run on the tree that a refused install of the same library
    left does what it would have done on the tree before. *)
Theorem install_after_rejected_install
    self library_id refused file fs library e :
  lookup_library self library_id = Some library ->
  installable_at fs library_id = true ->
  validate_vvlib self library_id refused = Raise e ->
  install_library self library_id file
    (snd (install_library self library_id refused fs))
  = install_library self library_id file fs.
Proof.
  intros Hfind Hinst Hval.
  rewrite (install_library_steps _ _ refused _ library), Hval by done.
  simpl.
  rewrite (install_library_steps _ _ file _ library)
    by (done || apply with_metadata_installable).
  rewrite (install_library_steps _ _ file fs library) by done.
  now rewrite with_metadata_again.
Qed.

End RejectedUpload.

(** ** Worked examples for the further properties *)

Section FurtherExamples.
Import Fixture.

(** An equation between closed terms, left to the virtual machine. *)
Ltac by_evaluation :=
  lazymatch goal with
  | |- _ = ?r => vm_cast_no_check (@eq_refl _ r)
  end.

Lemma fixture_install_returns :
  @install_library runtime (manager (v 1 0 0)) "lib-a"
    (vvlib "1.0.0" host_uuid) ∅ = (Return ["lib-a"], installed_tree).
Proof. by_evaluation. Qed.

Lemma fixture_listing :
  fst (@installed_libraries runtime installed_tree) = Return listing_of_a.
Proof. by_evaluation. Qed.

Lemma fixture_listing_entry :
  listing_of_a !! "lib-a" = Some (mkInstalled descriptor_fields true).
Proof. apply lookup_insert_eq. Qed.

Lemma fixture_archive_leaves_metadata :
  unwritten
    [Zip.mkZipInfo "vvlib_manifest.json"
       (object_text (manifest "1.0.0" "1.0.0" host_uuid)) true;
     Zip.mkZipInfo "model/voice.bin" "payload" true]
    ["lib-a"]
    ["vvlib_manifest.json"; "model/voice.bin"]
    ["lib-a"; INFO_FILE].
Proof. repeat constructor; intros c Hw; vm_compute in Hw; discriminate. Qed.

Example escaping_member_stays_inside :
  @install_library runtime (manager (v 1 0 0)) "lib-a" vvlib_escaping
    orphan_tree = (Return ["lib-a"], escaped_tree)
  /\ escaped_tree !! ["lib-a"; "orphan"; "evil.bin"] = Some (File "payload")
  /\ escaped_tree !! ["orphan"; "evil.bin"] = None
  /\ escaped_tree !! ["orphan"] = Some Dir.
Proof. repeat split; by_evaluation. Qed.

Lemma install_keeps_other_paths_witness :
  ~ ["lib-a"] `prefix_of` ["orphan"; "evil.bin"]
  /\ snd (@install_library runtime (manager (v 1 0 0)) "lib-a" vvlib_escaping
            orphan_tree) !! ["orphan"; "evil.bin"]
     = orphan_tree !! ["orphan"; "evil.bin"].
Proof.
  assert (~ ["lib-a"] `prefix_of` ["orphan"; "evil.bin"]) as Hout.
  { intros [k Hk]. discriminate. }
  split; [exact Hout|].
  exact (@install_keeps_other_paths runtime (manager (v 1 0 0)) "lib-a"
           vvlib_escaping orphan_tree ["orphan"; "evil.bin"] Hout).
Defined.


Lemma install_unpacks_archive_witness :
  exists zf,
    vvlib "1.0.0" host_uuid = Zip.Archive zf
    /\ installed_tree !! ["lib-a"; "model"; "voice.bin"]
       = Some (File "payload").
Proof.
  destruct (@install_unpacks_archive runtime (manager (v 1 0 0)) "lib-a"
              (vvlib "1.0.0" host_uuid) ∅ ["lib-a"] installed_tree
              fixture_install_returns)
    as (zf & Hzf & Hfiles & _).
  exists zf. split; [exact Hzf|]. injection Hzf as <-.
  apply (Hfiles ["vvlib_manifest.json"] "model/voice.bin" []).
  - by_evaluation.
  - by_evaluation.
  - constructor.
Defined.

Lemma install_metadata_document_witness :
  @install_library runtime (manager (v 1 0 0)) "lib-a" vvlib_with_metas ∅
  = (Return ["lib-a"], shadowed_tree)
  /\ shadowed_tree !! ["lib-a"; INFO_FILE] = Some (File "shadow").
Proof.
  assert (@install_library runtime (manager (v 1 0 0)) "lib-a"
            vvlib_with_metas ∅ = (Return ["lib-a"], shadowed_tree)) as Hrun
    by by_evaluation.
  split; [exact Hrun|].
  destruct (@install_metadata_document runtime (manager (v 1 0 0)) "lib-a"
              vvlib_with_metas ∅ ["lib-a"] shadowed_tree Hrun)
    as (library & zf & _ & Hzf & _ & Hshadow).
  injection Hzf as <-.
  apply (Hshadow ["vvlib_manifest.json"] "./metas.json" []).
  - by_evaluation.
  - by_evaluation.
  - constructor.
Defined.

Lemma install_blocked_witness :
  @lookup_library (manager (v 1 0 0)) "lib-a" = Some library_a
  /\ blocked_tree !! ["lib-a"] = Some (File "x")
  /\ @install_library runtime (manager (v 1 0 0)) "lib-a"
       (vvlib "1.0.0" host_uuid) blocked_tree
     = (Raise (OSError FileExistsError ["lib-a"]), blocked_tree).
Proof.
  assert (@lookup_library (manager (v 1 0 0)) "lib-a" = Some library_a)
    as Hfind by by_evaluation.
  assert (blocked_tree !! ["lib-a"] = Some (File "x")) as Hfile
    by by_evaluation.
  split; [exact Hfind|]. split; [exact Hfile|].
  exact (proj1 (@install_blocked runtime (manager (v 1 0 0)) "lib-a"
                  (vvlib "1.0.0" host_uuid) blocked_tree library_a Hfind)
           "x" Hfile).
Defined.


Lemma install_then_listing_witness :
  fst (@installed_libraries runtime ∅) = Return ∅
  /\ @installed_libraries runtime installed_tree
     = (Return listing_of_a, installed_tree).
Proof.
  assert (fst (@installed_libraries runtime ∅) = Return ∅) as Hbefore
    by by_evaluation.
  split; [exact Hbefore|].
  destruct (@install_then_listing runtime (manager (v 1 0 0)) "lib-a"
              (vvlib "1.0.0" host_uuid) ∅ ["lib-a"] installed_tree ∅
              Hbefore fixture_install_returns)
    as (_ & _ & Hentry).
  apply (Hentry library_a
           [Zip.mkZipInfo "vvlib_manifest.json"
              (object_text (manifest "1.0.0" "1.0.0" host_uuid)) true;
            Zip.mkZipInfo "model/voice.bin" "payload" true]
           descriptor_fields descriptor_fields).
  - by_evaluation.
  - reflexivity.
  - exact fixture_archive_leaves_metadata.
  - by_evaluation.
  - by_evaluation.
  - reflexivity.
Defined.

Lemma install_then_uninstall_witness :
  (forall p, ["lib-a"] `prefix_of` p -> (∅ : tree) !! p = None)
  /\ @uninstall_library runtime Fs.Completes "lib-a" installed_tree
     = (Return tt, ∅).
Proof.
  assert (forall p, ["lib-a"] `prefix_of` p -> (∅ : tree) !! p = None)
    as Hfresh by (intros p _; apply lookup_empty).
  split; [exact Hfresh|].
  exact (@install_then_uninstall runtime (manager (v 1 0 0)) "lib-a"
           (vvlib "1.0.0" host_uuid) ∅ ["lib-a"] installed_tree listing_of_a
           Hfresh fixture_install_returns fixture_listing).
Defined.

Lemma uninstall_changes_witness :
  fst (@uninstall_library runtime (Fs.FailsLeaving ∅) "lib-a" installed_tree)
  = Raise (HTTPException 500 (deletion_failed_detail "lib-a"))
  /\ snd (@uninstall_library runtime (Fs.FailsLeaving ∅) "lib-b"
            installed_tree) !! ["lib-a"; INFO_FILE]
     = installed_tree !! ["lib-a"; INFO_FILE].
Proof.
  destruct (@uninstall_changes runtime (Fs.FailsLeaving ∅) "lib-a"
              installed_tree) as (_ & _ & _ & Hfails).
  destruct (@uninstall_changes runtime (Fs.FailsLeaving ∅) "lib-b"
              installed_tree) as (_ & Hframe & _).
  split.
  - exact (Hfails ∅ listing_of_a _ eq_refl fixture_listing
             fixture_listing_entry).
  - apply Hframe. intros [k Hk]. discriminate.
Defined.

Lemma uninstall_twice_witness :
  exists fs',
    @uninstall_library runtime Fs.Completes "lib-a" installed_tree
    = (Return tt, fs')
    /\ @uninstall_library runtime Fs.Completes "lib-a" fs'
       = (Raise (HTTPException 404 (not_installed_detail "lib-a")), fs').
Proof.
  exact (@uninstall_twice runtime Fs.Completes "lib-a" installed_tree
           listing_of_a _ fixture_listing fixture_listing_entry).
Defined.

Lemma listing_keys_witness :
  (forall name, blocked_tree !! [name] <> Some Dir)
  /\ @installed_libraries runtime blocked_tree = (Return ∅, blocked_tree).
Proof.
  assert (forall name, blocked_tree !! [name] <> Some Dir) as Hnone.
  { intros name Hdir. unfold blocked_tree in Hdir.
    apply lookup_singleton_Some in Hdir as [_ [=]]. }
  split; [exact Hnone|].
  exact (proj2 (@listing_keys runtime blocked_tree) Hnone).
Defined.

Lemma version_gate_admits_witness :
  core_above (supported_vvlib_version (manager (v 2 0 0))) (v 1 0 0)
  /\ @validate_vvlib runtime (manager (v 2 0 0)) "lib-a"
       (Zip.Archive
          [Zip.mkZipInfo "vvlib_manifest.json"
             (object_text (manifest "1.0.0" "1.0.0" host_uuid)) true])
     = Return
         [Zip.mkZipInfo "vvlib_manifest.json"
            (object_text (manifest "1.0.0" "1.0.0" host_uuid)) true].
Proof.
  assert (core_above (supported_vvlib_version (manager (v 2 0 0))) (v 1 0 0))
    as Hbelow by (left; reflexivity).
  split; [exact Hbelow|].
  apply (@version_gate_admits runtime (manager (v 2 0 0)) "lib-a" _
           (manifest_object "1.0.0" host_uuid) "1.0.0" (v 1 0 0)).
  - by_evaluation.
  - by_evaluation.
  - split; [by_evaluation|].
    exists "1.0.0". split; by_evaluation.
  - by_evaluation.
  - by_evaluation.
  - left. exact Hbelow.
  - by_evaluation.
Defined.

Lemma manifest_entry_errors_witness :
  @validate_vvlib runtime (manager (v 1 0 0)) "lib-a" vvlib_without_manifest
  = Raise (HTTPException 422 (manifest_missing_detail "lib-a"))
  /\ @validate_vvlib runtime (manager (v 1 0 0)) "lib-a"
       vvlib_with_garbled_manifest
     = Raise (HTTPException 422 (manifest_undecodable_detail "lib-a")).
Proof.
  split.
  - apply (proj1 (@manifest_entry_errors runtime (manager (v 1 0 0)) "lib-a"
                    [Zip.mkZipInfo "model/voice.bin" "payload" true]
                    eq_refl)).
    repeat constructor. discriminate.
  - apply (proj2 (@manifest_entry_errors runtime (manager (v 1 0 0)) "lib-a"
                    [Zip.mkZipInfo "vvlib_manifest.json" "{" true] eq_refl)
             (Zip.mkZipInfo "vvlib_manifest.json" "{" true) ValueError).
    + by_evaluation.
    + by_evaluation.
Defined.

Lemma rejected_install_is_listed_witness :
  fst (@install_library runtime (manager (v 1 0 0)) "lib-a" vvlib_bad_crc ∅)
  = Raise (HTTPException 422 (not_a_zip_detail "lib-a"))
  /\ @installed_libraries runtime
       (snd (@install_library runtime (manager (v 1 0 0)) "lib-a"
               vvlib_bad_crc ∅))
     = (Return (<["lib-a" := mkInstalled descriptor_fields true]> ∅),
        snd (@install_library runtime (manager (v 1 0 0)) "lib-a"
               vvlib_bad_crc ∅)).
Proof.
  apply (@rejected_install_is_listed runtime (manager (v 1 0 0)) "lib-a"
           vvlib_bad_crc ∅ library_a ∅
           (HTTPException 422 (not_a_zip_detail "lib-a"))
           descriptor_fields descriptor_fields).
  - by_evaluation.
  - by_evaluation.
  - by_evaluation.
  - by_evaluation.
  - by_evaluation.
  - by_evaluation.
  - reflexivity.
Defined.

Lemma install_after_rejected_install_witness :
  @validate_vvlib runtime (manager (v 1 0 0)) "lib-a" vvlib_bad_crc
  = Raise (HTTPException 422 (not_a_zip_detail "lib-a"))
  /\ @install_library runtime (manager (v 1 0 0)) "lib-a"
       (vvlib "1.0.0" host_uuid)
       (snd (@install_library runtime (manager (v 1 0 0)) "lib-a"
               vvlib_bad_crc ∅))
     = @install_library runtime (manager (v 1 0 0)) "lib-a"
         (vvlib "1.0.0" host_uuid) ∅.
Proof.
  assert (@validate_vvlib runtime (manager (v 1 0 0)) "lib-a" vvlib_bad_crc
          = Raise (HTTPException 422 (not_a_zip_detail "lib-a"))) as Hval
    by by_evaluation.
  assert (@lookup_library (manager (v 1 0 0)) "lib-a" = Some library_a)
    as Hfind by by_evaluation.
  assert (installable_at ∅ "lib-a" = true) as Hinst
    by by_evaluation.
  split; [exact Hval|].
  exact (@install_after_rejected_install runtime (manager (v 1 0 0)) "lib-a"
           vvlib_bad_crc (vvlib "1.0.0" host_uuid) ∅ library_a _
           Hfind Hinst Hval).
Defined.

End FurtherExamples.
